(** * Expense tracker: a model of [index.js] and the properties of its
    authentication layer, its owner-scoped ledger and its monthly summary.

    The HTTP application is embedded as a state machine.  A [state] holds the
    module-level flag [isDbReady] and the two MongoDB collections the
    handlers use ([users] and [expenses], in natural order, i.e. in the order
    of insertion).  [handle] is the middleware chain of the application: the
    readiness gate, the route, [authenticateToken], the validation chains and
    the handler body.

    What the application obtains from its libraries and from its process
    environment is kept apart from it:
    - a [platform] holds what is fixed for the life of the process: the
      [JWT_SECRET] environment variable, the HS256 tag function of
      jsonwebtoken, bcryptjs' [hash] and [compare] and validator.js'
      [isISO8601];
    - an [env] holds what one request draws from outside: the clock, the salt
      bcryptjs generates, the order in which the database engine scans a
      collection and yields the rows of a [$group], and what other requests
      did between two awaits of the handler.

    Every handler but [/register] makes one call to the database, and is
    one step of the machine.  [/register] makes two, [findOne] and then
    [insertOne], and awaits in between: the [insertOne] is the step, and the
    [findOne] has seen the collection as it was before the registrations that
    came in between.  The calls to the database and to bcryptjs are taken to
    return: the [catch] branches, which answer with the message of an
    exception, are outside the model.

    Numbers are exact rationals.  Of the rounding of IEEE-754 doubles the
    model keeps what validation depends on, which values read as 0 and which
    as [Infinity]; sums are exact. *)

From Stdlib Require Import Bool Ascii String List ZArith NArith QArith Lia.
From Stdlib Require Import Permutation Sorted.
Import ListNotations.

Close Scope Q_scope.
Open Scope string_scope.
Open Scope list_scope.

(** ** JSON values of a request body *)

(** The text fields of a body ([username], [password], [type], [date],
    [description]) are JSON strings.  express-validator reads an absent
    field as the empty text, and every chain of this application rejects the
    empty text, so an absent field is written [""].  [amount] is the one
    field this development follows through both of its JSON shapes. *)
Inductive jsval : Type :=
| JNum (q : Q)
| JStr (s : string).

(** Equality of two stored values, as [$set] decides whether a field
    changes: numbers by value, texts byte by byte, never across types. *)
Definition jsval_eqb (a b : jsval) : bool :=
  match a, b with
  | JNum p, JNum q => Qeq_bool p q
  | JStr s, JStr t => String.eqb s t
  | _, _ => false
  end.

Definition ObjectId : Type := N.

(** ** validator.js *)

Module validator.

(** [isEmpty(str)]: [str.length === 0]. *)
Definition isEmpty (str : string) : bool :=
  match str with EmptyString => true | String _ _ => false end.

(** Whether a text starts with the last two bytes of U+FE0E or of U+FE0F,
    the variation selectors, whose first byte is [239]. *)
Definition selectorTail (str : string) : bool :=
  match str with
  | String b (String c _) =>
      (nat_of_ascii b =? 184)%nat
      && ((nat_of_ascii c =? 142)%nat || (nat_of_ascii c =? 143)%nat)
  | _ => false
  end.

(** The length [isLength] compares: the characters of a UTF-8 text, which
    are its bytes that are not continuation bytes [10xxxxxx], the variation
    selectors U+FE0E and U+FE0F not counted. *)
Fixpoint characters (str : string) : nat :=
  match str with
  | EmptyString => 0
  | String c rest =>
      let n := nat_of_ascii c in
      if (128 <=? n)%nat && (n <? 192)%nat then characters rest
      else if (n =? 239)%nat && selectorTail rest then characters rest
      else S (characters rest)
  end.

(** [isLength(str, {min})]. *)
Definition isLength (str : string) (min : nat) : bool :=
  (min <=? characters str)%nat.

(** [isIn(str, values)]. *)
Definition isIn (str : string) (values : list string) : bool :=
  existsb (String.eqb str) values.

Definition isDigit (c : ascii) : bool :=
  let n := nat_of_ascii c in (48 <=? n)%nat && (n <=? 57)%nat.

Definition digit (c : ascii) : Z := (Z.of_nat (nat_of_ascii c) - 48)%Z.

(** The longest prefix of digits, and what follows it. *)
Fixpoint digits (str : string) : list ascii * string :=
  match str with
  | String c rest =>
      if isDigit c then let (ds, tl) := digits rest in (c :: ds, tl)
      else ([], str)
  | EmptyString => ([], EmptyString)
  end.

Definition decimal (ds : list ascii) : Z :=
  fold_left (fun acc c => (10 * acc + digit c)%Z) ds 0%Z.

Definition isSign (c : ascii) : bool :=
  Ascii.eqb c "+" || Ascii.eqb c "-".

(** A text cut along the pattern of [isFloat]: an optional sign, digits,
    an optional dot followed by digits, and an optional exponent, which is
    [e] or [E], an optional sign and at least one digit. *)
Record literal : Type := {
  negative : bool;
  integral : list ascii;
  fraction : list ascii;
  exponent : Z
}.

Definition scanExponent (str : string) : option Z :=
  match str with
  | EmptyString => Some 0%Z
  | String c rest =>
      if Ascii.eqb c "e" || Ascii.eqb c "E" then
        let (neg, body) :=
          match rest with
          | String s tl =>
              if isSign s then (Ascii.eqb s "-", tl) else (false, rest)
          | EmptyString => (false, rest)
          end in
        match digits body with
        | (d :: ds, EmptyString) =>
            Some (if neg then (- decimal (d :: ds))%Z else decimal (d :: ds))
        | _ => None
        end
      else None
  end.

Definition scan (str : string) : option literal :=
  let (neg, body) :=
    match str with
    | String s tl =>
        if isSign s then (Ascii.eqb s "-", tl) else (false, str)
    | EmptyString => (false, str)
    end in
  let (int, afterInt) := digits body in
  let (frac, afterFrac) :=
    match afterInt with
    | String c tl =>
        if Ascii.eqb c "." then digits tl else ([], afterInt)
    | EmptyString => ([], afterInt)
    end in
  match scanExponent afterFrac with
  | Some e =>
      Some {| negative := neg; integral := int;
              fraction := frac; exponent := e |}
  | None => None
  end.

Definition pow10 (e : Z) : Q :=
  if (0 <=? e)%Z then inject_Z (10 ^ e) else Qinv (inject_Z (10 ^ (- e))).

(** [parseFloat] on a text the pattern accepts: [None] is [NaN], the
    value of a literal that has no digit before its exponent. *)
Definition parseFloat (l : literal) : option Q :=
  match integral l ++ fraction l with
  | [] => None
  | ds =>
      let m := inject_Z (decimal ds) in
      let e := (exponent l - Z.of_nat (length (fraction l)))%Z in
      let v := Qmult m (pow10 e) in
      Some (if negative l then Qopp v else v)
  end.

Definition Qltb (a b : Q) : bool :=
  (Qnum a * QDen b <? Qnum b * QDen a)%Z.

(** A number reads as a double greater than 0 when it is above [2^-1075],
    half of the least positive double: up to there it rounds to 0. *)
Definition aboveZero (q : Q) : bool :=
  Qltb (Qinv (inject_Z (2 ^ 1075))) q.

(** A number reads as a finite double when it is below [2^1024 - 2^970],
    half way from the greatest double to [2^1024]: from there on it rounds
    to [Infinity]. *)
Definition finite (q : Q) : bool :=
  Qltb q (inject_Z (2 ^ 1024 - 2 ^ 970)).

(** [isFloat(str, {gt: 0})]: the pattern, and [parseFloat(str) > 0], which
    [Infinity] satisfies. *)
Definition isFloat_gt0 (str : string) : bool :=
  match scan str with
  | Some l =>
      match parseFloat l with
      | Some v => aboveZero v
      | None => false
      end
  | None => false
  end.

End validator.

(** The validation chain runs on the text of the value.  A JSON number
    that is read as a finite double prints as a literal the pattern accepts
    and reads back as itself; one that is read as [Infinity] prints as a text
    the pattern refuses. *)
Definition amountIsFloat_gt0 (v : jsval) : bool :=
  match v with
  | JNum q => validator.aboveZero q && validator.finite q
  | JStr s => validator.isFloat_gt0 s
  end.

(** ** Documents, tokens and the process around the application *)

(** A document of the [users] collection. *)
Module User.
Record doc : Type := {
  _id : ObjectId;
  username : string;
  password : string
}.
End User.

(** A document of the [expenses] collection. *)
Module Expense.
Record doc : Type := {
  _id : ObjectId;
  user_id : ObjectId;
  type : string;
  amount : jsval;
  description : string;
  date : string
}.
End Expense.

(** A row of the summary: the [$group] key and its two accumulators. *)
Module Bucket.
Record doc : Type := {
  _id : string;
  total_income : Q;
  total_expense : Q
}.
End Bucket.

(** A token of jsonwebtoken: the claims [jwt.sign] is given, the two time
    claims it adds (in seconds), and the tag over them. *)
Module Jwt.
Record claims : Type := {
  user_id : ObjectId;
  username : string;
  iat : Z;
  exp : Z
}.
Record token : Type := {
  payload : claims;
  signature : string
}.
End Jwt.

(** What is fixed when the process starts. *)
Record platform : Type := {
  process_env_JWT_SECRET : option string;
  HS256 : string -> Jwt.claims -> string;
  bcrypt_hash : string -> N -> string -> string;
  bcrypt_compare : string -> string -> bool;
  isISO8601 : string -> bool
}.

(** What one request draws from outside the application: [Date.now()] in
    milliseconds; the salt [bcrypt.hash] generates; the order in which the
    engine scans the documents a [find] matches, before they are sorted; the
    order in which [$group] yields its rows; and, for [/register], how many
    users other requests have inserted since its [findOne]. *)
Record env : Type := {
  Date_now : Z;
  genSalt : string;
  scanOrder : list Expense.doc -> list Expense.doc;
  groupOrder : list Bucket.doc -> list Bucket.doc;
  insertedSinceFindOne : nat
}.

(** Texts in MongoDB's simple collation: byte by byte. *)
Definition date_geb (a b : Expense.doc) : bool :=
  String.leb (Expense.date b) (Expense.date a).

(** What MongoDB guarantees of these two orders: a scan yields the
    documents it is given, and [$group] its rows, each once, in some
    order. *)
Record engine_ok (e : env) : Prop := {
  scan_permutes : forall l, Permutation (scanOrder e l) l;
  group_permutes : forall l, Permutation (groupOrder e l) l
}.

(** ** MongoDB collections *)

Module Collection.
Section Ops.
Context {A : Type}.

Definition findOne (filter : A -> bool) (c : list A) : option A :=
  List.find filter c.

Definition insertOne (d : A) (c : list A) : list A := c ++ [d].

(** [updateOne(filter, {$set})] changes the first document the filter
    matches, and counts it as modified when [$set] changes a field. *)
Fixpoint updateOne (filter : A -> bool) (same : A -> bool) (set : A -> A)
  (c : list A) : list A * N :=
  match c with
  | [] => ([], 0%N)
  | d :: rest =>
      if filter d then
        if same d then (d :: rest, 0%N) else (set d :: rest, 1%N)
      else
        let (rest', n) := updateOne filter same set rest in (d :: rest', n)
  end.

(** [deleteOne(filter)] removes the first document the filter matches. *)
Fixpoint deleteOne (filter : A -> bool) (c : list A) : list A * N :=
  match c with
  | [] => ([], 0%N)
  | d :: rest =>
      if filter d then (rest, 1%N)
      else let (rest', n) := deleteOne filter rest in (d :: rest', n)
  end.

(** [cursor.sort]: the documents are put in order one after the other, each
    in front of the first one it does not come after. *)
Fixpoint insertSorted (before : A -> A -> bool) (d : A) (c : list A)
  : list A :=
  match c with
  | [] => [d]
  | x :: rest =>
      if before d x then d :: c else x :: insertSorted before d rest
  end.

Definition sort (before : A -> A -> bool) (c : list A) : list A :=
  fold_right (insertSorted before) [] c.

End Ops.
End Collection.

(** ** The aggregation of [/summary] *)

(** [{ $substr: ['$date', 0, 7] }]. *)
Definition period (d : Expense.doc) : string :=
  String.substring 0 7 (Expense.date d).

(** [{ $cond: [{ $eq: ['$type', t] }, '$amount', 0] }]. *)
Definition cond_amount (t : string) (d : Expense.doc) : jsval :=
  if String.eqb (Expense.type d) t then Expense.amount d else JNum 0.

(** One step of [$sum]: a number is added, any other value is skipped. *)
Definition sum_step (acc : Q) (v : jsval) : Q :=
  match v with
  | JNum q => Qplus acc q
  | JStr _ => acc
  end.

(** A row [$group] opens for a new key: both sums start from 0. *)
Definition newRow (key : string) : Bucket.doc :=
  {| Bucket._id := key; Bucket.total_income := 0; Bucket.total_expense := 0 |}.

(** Both accumulators of a row take one document. *)
Definition addTo (r : Bucket.doc) (d : Expense.doc) : Bucket.doc :=
  {| Bucket._id := Bucket._id r;
     Bucket.total_income :=
       sum_step (Bucket.total_income r) (cond_amount "income" d);
     Bucket.total_expense :=
       sum_step (Bucket.total_expense r) (cond_amount "expense" d) |}.

(** [$group] takes one document: it goes to the row of its key, a new row
    when the key is new. *)
Fixpoint accumulate (d : Expense.doc) (rows : list Bucket.doc)
  : list Bucket.doc :=
  match rows with
  | [] => [addTo (newRow (period d)) d]
  | r :: rest =>
      if String.eqb (Bucket._id r) (period d) then addTo r d :: rest
      else r :: accumulate d rest
  end.

Definition group (docs : list Expense.doc) : list Bucket.doc :=
  fold_left (fun rows d => accumulate d rows) docs [].

(** ** Requests and responses *)

(** The body of [/register] and of [/login]. *)
Module Credentials.
Record body : Type := {
  username : string;
  password : string
}.
End Credentials.

(** The body of [POST /expense] and of [PUT /expense/:id]. *)
Module Entry.
Record body : Type := {
  type : string;
  amount : jsval;
  description : string;
  date : string
}.
End Entry.

(** A piece of the [Authorization] header: a compact serialisation of a
    token, or any other text. *)
Inductive word : Type :=
| Opaque (s : string)
| Compact (t : Jwt.token).

(** The [Authorization] header cut at its spaces ([split(' ')]), [None] when
    the request has none. *)
Definition authorization : Type := option (list word).

Definition Bearer (t : Jwt.token) : authorization :=
  Some [Opaque "Bearer"; Compact t].

(** The seven routes.  The [:id] segment is [None] when [new ObjectId]
    throws on it. *)
Inductive request : Type :=
| POST_register (body : Credentials.body)
| POST_login (body : Credentials.body)
| POST_expense (auth : authorization) (body : Entry.body)
| GET_expenses (auth : authorization)
| PUT_expense (id : option ObjectId) (auth : authorization)
    (body : Entry.body)
| DELETE_expense (id : option ObjectId) (auth : authorization)
| GET_summary (auth : authorization).

Inductive json : Type :=
| Error (error : string)
| Errors (errors : list string)
| Registered (id : ObjectId) (username : string)
| Token (token : Jwt.token)
| Inserted (id : ObjectId)
| Expenses (docs : list Expense.doc)
| Updated (updated : N)
| Deleted (deleted : N)
| Summary (rows : list Bucket.doc).

Record response : Type := {
  status : N;
  body : json
}.

(** ** The application *)

(** [isDbReady], the two collections behind [db], and the next identifier
    the driver generates. *)
Record state : Type := {
  isDbReady : bool;
  users : list User.doc;
  expenses : list Expense.doc;
  next_id : ObjectId
}.

Definition initial : state :=
  {| isDbReady := false; users := []; expenses := []; next_id := 0%N |}.

(** [startServer], once [MongoClient.connect] has resolved. *)
Definition startServer (s : state) : state :=
  {| isDbReady := true; users := users s; expenses := expenses s;
     next_id := next_id s |}.

Definition send (code : N) (j : json) (s : state) : response * state :=
  ({| status := code; body := j |}, s).

(** One validator of a chain and its [withMessage]. *)
Definition check (ok : bool) (msg : string) : list string :=
  if ok then [] else [msg].

(** The message of the error [new ObjectId] throws on a text that is not an
    identifier. *)
Definition BSONError : string :=
  "input must be a 24 character hex string, 12 byte Uint8Array, or an integer".

Section App.
Variable P : platform.

Definition JWT_SECRET : string :=
  match process_env_JWT_SECRET P with
  | Some s => if validator.isEmpty s then "yourSecretKey" else s
  | None => "yourSecretKey"
  end.

(** [jwt.sign({user_id, username}, secret, {expiresIn: '1h'})]. *)
Definition jwt_sign (user_id : ObjectId) (username : string)
  (secret : string) (now : Z) : Jwt.token :=
  let iat := (now / 1000)%Z in
  let c := {| Jwt.user_id := user_id; Jwt.username := username;
              Jwt.iat := iat; Jwt.exp := (iat + 3600)%Z |} in
  {| Jwt.payload := c; Jwt.signature := HS256 P secret c |}.

(** [jwt.verify(token, secret)]: the tag, then the expiry. *)
Definition jwt_verify (t : Jwt.token) (secret : string) (now : Z)
  : option Jwt.claims :=
  if String.eqb (Jwt.signature t) (HS256 P secret (Jwt.payload t)) then
    if (Jwt.exp (Jwt.payload t) <=? now / 1000)%Z then None
    else Some (Jwt.payload t)
  else None.

Definition authenticateToken (e : env) (authHeader : authorization)
  (next : Jwt.claims -> state -> response * state) (s : state)
  : response * state :=
  match authHeader with
  | None => send 401 (Error "No token provided") s
  | Some pieces =>
      match nth_error pieces 1 with
      | None | Some (Opaque "") => send 401 (Error "No token provided") s
      | Some (Opaque _) => send 403 (Error "Invalid token") s
      | Some (Compact t) =>
          match jwt_verify t JWT_SECRET (Date_now e) with
          | None => send 403 (Error "Invalid token") s
          | Some user => next user s
          end
      end
  end.

(** The users the [findOne] of [/register] saw, when [s] is the state its
    [insertOne] finds: those of [s] but the ones inserted in between, which
    are the last ones. *)
Definition usersAtFindOne (e : env) (s : state) : list User.doc :=
  firstn (length (users s) - insertedSinceFindOne e) (users s).

Definition register (e : env) (b : Credentials.body) (s : state)
  : response * state :=
  let username := Credentials.username b in
  let password := Credentials.password b in
  let errors :=
    check (negb (validator.isEmpty username)) "Username is required"
    ++ check (validator.isLength username 4)
         "Username must be at least 4 characters"
    ++ check (validator.isLength password 4)
         "Password must be at least 4 characters" in
  match errors with
  | _ :: _ => send 400 (Errors errors) s
  | [] =>
      match Collection.findOne
              (fun u => String.eqb (User.username u) username)
              (usersAtFindOne e s) with
      | Some _ => send 400 (Error "Username already exists") s
      | None =>
          let hash := bcrypt_hash P password 10 (genSalt e) in
          let insertedId := next_id s in
          send 200 (Registered insertedId username)
            {| isDbReady := isDbReady s;
               users := Collection.insertOne
                          {| User._id := insertedId;
                             User.username := username;
                             User.password := hash |} (users s);
               expenses := expenses s;
               next_id := N.succ (next_id s) |}
      end
  end.

Definition login (e : env) (b : Credentials.body) (s : state)
  : response * state :=
  let username := Credentials.username b in
  let password := Credentials.password b in
  let errors :=
    check (negb (validator.isEmpty username)) "Username is required"
    ++ check (negb (validator.isEmpty password)) "Password is required" in
  match errors with
  | _ :: _ => send 400 (Errors errors) s
  | [] =>
      match Collection.findOne
              (fun u => String.eqb (User.username u) username) (users s) with
      | None => send 401 (Error "User not found") s
      | Some user =>
          if bcrypt_compare P password (User.password user) then
            send 200
              (Token (jwt_sign (User._id user) username JWT_SECRET
                        (Date_now e))) s
          else send 401 (Error "Invalid password") s
      end
  end.

(** The four chains of [POST /expense] and of [PUT /expense/:id]. *)
Definition validateEntry (b : Entry.body) : list string :=
  check (validator.isIn (Entry.type b) ["expense"; "income"])
    "type ต้องเป็น expense หรือ income"
  ++ check (amountIsFloat_gt0 (Entry.amount b))
       "amount ต้องเป็นตัวเลขมากกว่า 0"
  ++ check (isISO8601 P (Entry.date b))
       "date ต้องเป็นวันที่แบบ yyyy-mm-dd"
  ++ check (negb (validator.isEmpty (Entry.description b)))
       "description ต้องไม่ว่าง".

Definition addExpense (b : Entry.body) (user : Jwt.claims) (s : state)
  : response * state :=
  match validateEntry b with
  | (_ :: _) as errors => send 400 (Errors errors) s
  | [] =>
      let insertedId := next_id s in
      send 200 (Inserted insertedId)
        {| isDbReady := isDbReady s;
           users := users s;
           expenses := Collection.insertOne
                         {| Expense._id := insertedId;
                            Expense.user_id := Jwt.user_id user;
                            Expense.type := Entry.type b;
                            Expense.amount := Entry.amount b;
                            Expense.description := Entry.description b;
                            Expense.date := Entry.date b |} (expenses s);
           next_id := N.succ (next_id s) |}
  end.

(** [{ user_id: new ObjectId(req.user.user_id) }]. *)
Definition ownedBy (owner : ObjectId) (d : Expense.doc) : bool :=
  N.eqb (Expense.user_id d) owner.

(** [{ _id: new ObjectId(req.params.id),
       user_id: new ObjectId(req.user.user_id) }]. *)
Definition ownedEntry (id owner : ObjectId) (d : Expense.doc) : bool :=
  N.eqb (Expense._id d) id && N.eqb (Expense.user_id d) owner.

(** The order of [sort({ date: direction })] on two entries: whether the
    first may come before the second. *)
Definition dateOrder (direction : Z) (a b : Expense.doc) : bool :=
  if (direction <? 0)%Z then String.leb (Expense.date b) (Expense.date a)
  else String.leb (Expense.date a) (Expense.date b).

(** [find({ user_id }).sort({ date: -1 }).toArray()]. *)
Definition getExpenses (e : env) (user : Jwt.claims) (s : state)
  : response * state :=
  send 200
    (Expenses
       (Collection.sort (dateOrder (-1))
          (scanOrder e
             (filter (ownedBy (Jwt.user_id user)) (expenses s)))))
    s.

(** [{ $set: { type, amount, description, date } }]. *)
Definition setFields (b : Entry.body) (d : Expense.doc) : Expense.doc :=
  {| Expense._id := Expense._id d;
     Expense.user_id := Expense.user_id d;
     Expense.type := Entry.type b;
     Expense.amount := Entry.amount b;
     Expense.description := Entry.description b;
     Expense.date := Entry.date b |}.

(** Whether [$set] leaves the document as it is. *)
Definition sameFields (b : Entry.body) (d : Expense.doc) : bool :=
  String.eqb (Expense.type d) (Entry.type b)
  && jsval_eqb (Expense.amount d) (Entry.amount b)
  && String.eqb (Expense.description d) (Entry.description b)
  && String.eqb (Expense.date d) (Entry.date b).

Definition updateExpense (id : option ObjectId) (b : Entry.body)
  (user : Jwt.claims) (s : state) : response * state :=
  match validateEntry b with
  | (_ :: _) as errors => send 400 (Errors errors) s
  | [] =>
      match id with
      | None => send 400 (Error BSONError) s
      | Some id =>
          let (docs, modifiedCount) :=
            Collection.updateOne (ownedEntry id (Jwt.user_id user))
              (sameFields b) (setFields b) (expenses s) in
          send 200 (Updated modifiedCount)
            {| isDbReady := isDbReady s; users := users s;
               expenses := docs; next_id := next_id s |}
      end
  end.

Definition deleteExpense (id : option ObjectId) (user : Jwt.claims)
  (s : state) : response * state :=
  match id with
  | None => send 400 (Error BSONError) s
  | Some id =>
      let (docs, deletedCount) :=
        Collection.deleteOne (ownedEntry id (Jwt.user_id user))
          (expenses s) in
      send 200 (Deleted deletedCount)
        {| isDbReady := isDbReady s; users := users s;
           expenses := docs; next_id := next_id s |}
  end.

(** [aggregate([{ $match }, { $group }])]. *)
Definition summarize (e : env) (owner : ObjectId)
  (docs : list Expense.doc) : list Bucket.doc :=
  groupOrder e (group (filter (ownedBy owner) docs)).

Definition getSummary (e : env) (user : Jwt.claims) (s : state)
  : response * state :=
  send 200 (Summary (summarize e (Jwt.user_id user) (expenses s))) s.

(** The middleware chain: the readiness gate, then the route. *)
Definition handle (e : env) (req : request) (s : state)
  : response * state :=
  if negb (isDbReady s) then send 503 (Error "Database not ready") s
  else
    match req with
    | POST_register b => register e b s
    | POST_login b => login e b s
    | POST_expense auth b => authenticateToken e auth (addExpense b) s
    | GET_expenses auth => authenticateToken e auth (getExpenses e) s
    | PUT_expense id auth b =>
        authenticateToken e auth (updateExpense id b) s
    | DELETE_expense id auth =>
        authenticateToken e auth (deleteExpense id) s
    | GET_summary auth => authenticateToken e auth (getSummary e) s
    end.

(** The states the process goes through. *)
Inductive reachable : state -> Prop :=
| reachable_initial : reachable initial
| reachable_startServer s : reachable s -> reachable (startServer s)
| reachable_handle e req s :
    reachable s -> reachable (snd (handle e req s)).

End App.

Arguments reachable_handle P e req [s] _.
Arguments reachable_startServer P [s] _.

(** ** Notions the properties are stated with *)

(** The identity [authenticateToken] puts in [req.user], when it lets the
    request through. *)
Definition authenticated (P : platform) (e : env) (auth : authorization)
  : option Jwt.claims :=
  match auth with
  | Some pieces =>
      match nth_error pieces 1 with
      | Some (Compact t) => jwt_verify P t (JWT_SECRET P) (Date_now e)
      | _ => None
      end
  | None => None
  end.

(** [db.collection('users').findOne({ username })]: the first user stored
    under the name. *)
Definition findByUsername (username : string) (s : state)
  : option User.doc :=
  Collection.findOne (fun u => String.eqb (User.username u) username)
    (users s).

(** The fields of a stored entry, as a body. *)
Definition fieldsOf (d : Expense.doc) : Entry.body :=
  {| Entry.type := Expense.type d;
     Entry.amount := Expense.amount d;
     Entry.description := Expense.description d;
     Entry.date := Expense.date d |}.

Definition credentials (username password : string) : Credentials.body :=
  {| Credentials.username := username; Credentials.password := password |}.

(** Identifiers come from one generator; a name has at least four
    characters; every stored entry went through the validation chains. *)
Record wf (P : platform) (s : state) : Prop := {
  wf_user_ids :
    Forall (fun u => (User._id u < next_id s)%N) (users s);
  wf_expense_ids :
    Forall (fun d => (Expense._id d < next_id s)%N) (expenses s);
  wf_ids_distinct : NoDup (map Expense._id (expenses s));
  wf_names_long :
    Forall (fun u => validator.isLength (User.username u) 4 = true)
      (users s);
  wf_entries_valid :
    Forall (fun d => validateEntry P (fieldsOf d) = []) (expenses s)
}.

(** ** The summary, in the words of its specification *)

Module Spec.

(** The amounts that are numbers. *)
Fixpoint numbers (l : list jsval) : list Q :=
  match l with
  | [] => []
  | JNum q :: rest => q :: numbers rest
  | JStr _ :: rest => numbers rest
  end.

Definition sum (l : list Q) : Q := fold_right Qplus 0%Q l.

(** The month of an entry: the first seven characters of its date. *)
Definition monthOf (d : Expense.doc) : string :=
  String.substring 0 7 (Expense.date d).

(** The entries of one month and one type. *)
Definition inBucket (month type : string) (d : Expense.doc) : bool :=
  String.eqb (monthOf d) month && String.eqb (Expense.type d) type.

(** The sum of [amount] over the entries of one type in one month. *)
Definition total (type month : string) (docs : list Expense.doc) : Q :=
  sum (numbers (map Expense.amount (filter (inBucket month type) docs))).

(** The number an amount stands for: a number for itself, a text for the
    number it reads as, and for 0 when it reads as none. *)
Definition valueOf (a : jsval) : Q :=
  match a with
  | JNum q => q
  | JStr str =>
      match validator.scan str with
      | Some l =>
          match validator.parseFloat l with
          | Some v => v
          | None => 0%Q
          end
      | None => 0%Q
      end
  end.

(** The sum of [amount] over the entries of one type in one month, each
    amount for the number it stands for. *)
Definition sumOfAmounts (type month : string) (docs : list Expense.doc)
  : Q :=
  sum (map (fun d => valueOf (Expense.amount d))
         (filter (inBucket month type) docs)).

(** The day of a calendar date written [YYYY-MM-DD] or [YYYYMMDD], as the
    number [YYYYMMDD]: a later day has a greater number. *)
Definition dayNumber (date : string) : option Z :=
  match list_ascii_of_string date with
  | [y1; y2; y3; y4; s1; m1; m2; s2; d1; d2] =>
      if forallb validator.isDigit [y1; y2; y3; y4; m1; m2; d1; d2]
         && Ascii.eqb s1 "-" && Ascii.eqb s2 "-"
      then Some (validator.decimal [y1; y2; y3; y4; m1; m2; d1; d2])
      else None
  | [y1; y2; y3; y4; m1; m2; d1; d2] =>
      if forallb validator.isDigit [y1; y2; y3; y4; m1; m2; d1; d2]
      then Some (validator.decimal [y1; y2; y3; y4; m1; m2; d1; d2])
      else None
  | _ => None
  end.

End Spec.

(** What [$group] holds after it has taken the documents [seen]: one row
    for each month of [seen], with the two sums of that month. *)
Record grouped (seen : list Expense.doc) (rows : list Bucket.doc) : Prop := {
  grouped_distinct : NoDup (map Bucket._id rows);
  grouped_months : forall month,
    In month (map Bucket._id rows) <->
    exists d, In d seen /\ period d = month;
  grouped_totals : forall r, In r rows ->
    (Bucket.total_income r == Spec.total "income" (Bucket._id r) seen)%Q
    /\ (Bucket.total_expense r == Spec.total "expense" (Bucket._id r) seen)%Q
}.

(** ** A platform and a database engine to run the application on

    The theorems below hold on every platform; the examples run on this
    one.  Its hash keeps the password in front of the salt and its tag keeps
    the key in front of the subject, which is all the examples need. *)

Module Sample.

Definition hash (password : string) (rounds : N) (salt : string) : string :=
  password ++ "$" ++ salt.

Definition compare (password hashed : string) : bool :=
  String.prefix (password ++ "$") hashed.

Definition tag (key : string) (c : Jwt.claims) : string :=
  key ++ "." ++ Jwt.username c.

(** Ten bytes, [dddd-dd-dd], or eight digits, [dddddddd]. *)
Definition isDate (str : string) : bool :=
  match list_ascii_of_string str with
  | [y1; y2; y3; y4; d1; m1; m2; d2; n1; n2] =>
      forallb validator.isDigit [y1; y2; y3; y4; m1; m2; n1; n2]
      && Ascii.eqb d1 "-" && Ascii.eqb d2 "-"
  | [y1; y2; y3; y4; m1; m2; n1; n2] =>
      forallb validator.isDigit [y1; y2; y3; y4; m1; m2; n1; n2]
  | _ => false
  end.

Definition process : platform :=
  {| process_env_JWT_SECRET := None;
     HS256 := tag;
     bcrypt_hash := hash;
     bcrypt_compare := compare;
     isISO8601 := isDate |}.

(** An engine that scans a collection in the order of insertion, at a
    time when no other request is under way. *)
Definition at_time (now : Z) : env :=
  {| Date_now := now; genSalt := "salt";
     scanOrder := fun docs => docs; groupOrder := fun rows => rows;
     insertedSinceFindOne := 0 |}.

(** The same, for a [/register] whose [findOne] ran before the last [n]
    users were inserted. *)
Definition racing (n : nat) (now : Z) : env :=
  {| Date_now := now; genSalt := "pepper";
     scanOrder := fun docs => docs; groupOrder := fun rows => rows;
     insertedSinceFindOne := n |}.

End Sample.

(** ** A run of the application *)

Module Scenario.

Definition alice : Credentials.body := credentials "alice" "pass1234".

(** The state after the server has started and [alice] has registered. *)
Definition registered : state :=
  snd (handle Sample.process (Sample.at_time 1000) (POST_register alice)
         (startServer initial)).

Definition aliceDoc : User.doc :=
  {| User._id := 0%N; User.username := "alice";
     User.password := "pass1234$salt" |}.

(** The token [alice] is given on logging in five seconds into the
    epoch. *)
Definition aliceToken : Jwt.token :=
  jwt_sign Sample.process 0%N "alice" (JWT_SECRET Sample.process) 5000.

Definition bob : Credentials.body := credentials "bobby" "hunter22".

(** Then [bobby] registers. *)
Definition twoUsers : state :=
  snd (handle Sample.process (Sample.at_time 2000) (POST_register bob)
         registered).

Definition bobToken : Jwt.token :=
  jwt_sign Sample.process 1%N "bobby" (JWT_SECRET Sample.process) 5000.

Definition lunch : Entry.body :=
  {| Entry.type := "expense"; Entry.amount := JNum (25 # 2);
     Entry.description := "lunch"; Entry.date := "2025-01-05" |}.

(** Then [alice] records a lunch. *)
Definition withLunch : state :=
  snd (handle Sample.process (Sample.at_time 6000)
         (POST_expense (Bearer aliceToken) lunch) twoUsers).

Definition lunchDoc : Expense.doc :=
  {| Expense._id := 2%N; Expense.user_id := 0%N;
     Expense.type := "expense"; Expense.amount := JNum (25 # 2);
     Expense.description := "lunch"; Expense.date := "2025-01-05" |}.

Definition coffee : Entry.body :=
  {| Entry.type := "expense"; Entry.amount := JNum 3;
     Entry.description := "coffee"; Entry.date := "2025-01-05" |}.

(** Then [alice] records a coffee of the same day. *)
Definition withCoffee : state :=
  snd (handle Sample.process (Sample.at_time 6500)
         (POST_expense (Bearer aliceToken) coffee) withLunch).

Definition coffeeDoc : Expense.doc :=
  {| Expense._id := 3%N; Expense.user_id := 0%N;
     Expense.type := "expense"; Expense.amount := JNum 3;
     Expense.description := "coffee"; Expense.date := "2025-01-05" |}.

(** A salary whose amount is sent as a text. *)
Definition salary : Entry.body :=
  {| Entry.type := "income"; Entry.amount := JStr "12.5";
     Entry.description := "salary"; Entry.date := "2025-01-05" |}.

Definition december : Entry.body :=
  {| Entry.type := "expense"; Entry.amount := JNum 40;
     Entry.description := "gifts"; Entry.date := "2025-12-31" |}.

Definition january : Entry.body :=
  {| Entry.type := "expense"; Entry.amount := JNum 10;
     Entry.description := "bus"; Entry.date := "20250101" |}.

(** After [twoUsers], [alice] records the gifts of 31 December 2025 and
    then the bus of 1 January 2025. *)
Definition withDates : state :=
  snd (handle Sample.process (Sample.at_time 8000)
         (POST_expense (Bearer aliceToken) january)
         (snd (handle Sample.process (Sample.at_time 7000)
                 (POST_expense (Bearer aliceToken) december) twoUsers))).

Definition decemberDoc : Expense.doc :=
  {| Expense._id := 2%N; Expense.user_id := 0%N;
     Expense.type := "expense"; Expense.amount := JNum 40;
     Expense.description := "gifts"; Expense.date := "2025-12-31" |}.

Definition januaryDoc : Expense.doc :=
  {| Expense._id := 3%N; Expense.user_id := 0%N;
     Expense.type := "expense"; Expense.amount := JNum 10;
     Expense.description := "bus"; Expense.date := "20250101" |}.

(** After [twoUsers], [bobby] records a salary whose amount is a text. *)
Definition withSalary : state :=
  snd (handle Sample.process (Sample.at_time 7000)
         (POST_expense (Bearer bobToken) salary) twoUsers).

Definition salaryDoc : Expense.doc :=
  {| Expense._id := 2%N; Expense.user_id := 1%N;
     Expense.type := "income"; Expense.amount := JStr "12.5";
     Expense.description := "salary"; Expense.date := "2025-01-05" |}.

(** After [registered], a second registration under the name of [alice],
    whose [findOne] ran before [alice] was inserted. *)
Definition secondAlice : Credentials.body := credentials "alice" "hunter22".

Definition twoAlices : state :=
  snd (handle Sample.process (Sample.racing 1 1001)
         (POST_register secondAlice) registered).

End Scenario.

(** ** Executions and readings of a request *)

(** The states the process goes through from a given one. *)
Inductive steps (P : platform) (s : state) : state -> Prop :=
| steps_here : steps P s s
| steps_startServer s' : steps P s s' -> steps P s (startServer s')
| steps_handle e req s' :
    steps P s s' -> steps P s (snd (handle P e req s')).

(** What a request leaves of the flag, of the users and of the generator
    of identifiers. *)
Definition extends (s s' : state) : Prop :=
  isDbReady s' = isDbReady s
  /\ (exists l, users s' = users s ++ l)
  /\ (next_id s <= next_id s')%N.

(** The [Authorization] header a route behind [authenticateToken] reads;
    [/register] and [/login] read none. *)
Definition authorizationOf (req : request) : option authorization :=
  match req with
  | POST_register _ | POST_login _ => None
  | POST_expense auth _ | GET_expenses auth | PUT_expense _ auth _
  | DELETE_expense _ auth | GET_summary auth => Some auth
  end.

(** The [_id] and the owner of an entry. *)
Definition identityOf (d : Expense.doc) : ObjectId * ObjectId :=
  (Expense._id d, Expense.user_id d).

(** The entry [POST /expense] stores for a body. *)
Definition entryOf (id owner : ObjectId) (b : Entry.body) : Expense.doc :=
  {| Expense._id := id; Expense.user_id := owner;
     Expense.type := Entry.type b; Expense.amount := Entry.amount b;
     Expense.description := Entry.description b;
     Expense.date := Entry.date b |}.


(** * Properties *)

(** ** [isFloat] on a few texts *)

Example isFloat_decimal : validator.isFloat_gt0 "12.5" = true.
Proof. reflexivity. Qed.

Example isFloat_exponent : validator.isFloat_gt0 "+.5e1" = true.
Proof. reflexivity. Qed.

Example isFloat_zero : validator.isFloat_gt0 "0.0" = false.
Proof. reflexivity. Qed.

Example isFloat_negative : validator.isFloat_gt0 "-3" = false.
Proof. reflexivity. Qed.

Example isFloat_text : validator.isFloat_gt0 "12a" = false.
Proof. reflexivity. Qed.

Example isFloat_dot : validator.isFloat_gt0 "." = false.
Proof. reflexivity. Qed.

Example isFloat_empty : validator.isFloat_gt0 "" = false.
Proof. reflexivity. Qed.

Example isFloat_bare_exponent : validator.isFloat_gt0 "e5" = false.
Proof. reflexivity. Qed.

(** ** The order of texts *)

Lemma ascii_compare_refl (a : ascii) : Ascii.compare a a = Eq.
Proof. unfold Ascii.compare. apply N.compare_refl. Qed.

Lemma string_compare_refl (s : string) : String.compare s s = Eq.
Proof.
  induction s as [|a s IH]; simpl; [reflexivity|].
  now rewrite ascii_compare_refl.
Qed.

Lemma string_leb_refl (s : string) : String.leb s s = true.
Proof. unfold String.leb. now rewrite string_compare_refl. Qed.

Lemma string_leb_trans (a b c : string) :
  String.leb a b = true -> String.leb b c = true -> String.leb a c = true.
Proof.
  unfold String.leb. revert b c.
  induction a as [|x a IH]; intros [|y b] [|z c]; simpl;
    try discriminate; try reflexivity.
  unfold Ascii.compare.
  destruct (N.compare_spec (N_of_ascii x) (N_of_ascii y)) as [Hxy|Hxy|Hxy];
    try discriminate;
    destruct (N.compare_spec (N_of_ascii y) (N_of_ascii z)) as [Hyz|Hyz|Hyz];
    try discriminate;
    destruct (N.compare_spec (N_of_ascii x) (N_of_ascii z)) as [Hxz|Hxz|Hxz];
    try lia; try reflexivity.
  apply IH.
Qed.

Lemma date_geb_trans (a b c : Expense.doc) :
  date_geb a b = true -> date_geb b c = true -> date_geb a c = true.
Proof. unfold date_geb. intros H1 H2. exact (string_leb_trans _ _ _ H2 H1). Qed.

Lemma date_geb_total (a b : Expense.doc) :
  date_geb a b = true \/ date_geb b a = true.
Proof. unfold date_geb. apply String.leb_total. Qed.

(** ** Collections *)

Section CollectionFacts.
Context {A : Type}.
Implicit Types (c : list A) (filter same : A -> bool) (set : A -> A).

Lemma updateOne_no_match filter same set c :
  (forall d, In d c -> filter d = false) ->
  Collection.updateOne filter same set c = (c, 0%N).
Proof.
  induction c as [|d c IH]; intros H; simpl; [reflexivity|].
  rewrite (H d (or_introl eq_refl)).
  rewrite IH; [reflexivity|]. intros x Hx. apply H. now right.
Qed.

Lemma updateOne_same filter same set c :
  (forall d, In d c -> filter d = true -> same d = true) ->
  Collection.updateOne filter same set c = (c, 0%N).
Proof.
  induction c as [|d c IH]; intros H; simpl; [reflexivity|].
  destruct (filter d) eqn:Hf.
  - now rewrite (H d (or_introl eq_refl) Hf).
  - rewrite IH; [reflexivity|]. intros x Hx. apply H. now right.
Qed.

Lemma updateOne_keeps filter same set c d :
  In d c -> filter d = false ->
  In d (fst (Collection.updateOne filter same set c)).
Proof.
  induction c as [|x c IH]; intros Hin Hf; simpl; [contradiction|].
  destruct (filter x) eqn:Hx.
  - destruct Hin as [->|Hin]; [congruence|].
    destruct (same x); simpl; now right.
  - destruct (Collection.updateOne filter same set c) as [c' n] eqn:E.
    simpl in *. destruct Hin as [->|Hin]; [now left|right; now apply IH].
Qed.

Lemma updateOne_map {K : Type} (key : A -> K) filter same set c :
  (forall d, key (set d) = key d) ->
  map key (fst (Collection.updateOne filter same set c)) = map key c.
Proof.
  intros Hk. induction c as [|x c IH]; simpl; [reflexivity|].
  destruct (filter x).
  - destruct (same x); simpl; [reflexivity|]. now rewrite Hk.
  - destruct (Collection.updateOne filter same set c) as [c' n].
    simpl in *. now rewrite IH.
Qed.

Lemma updateOne_Forall (Q : A -> Prop) filter same set c :
  (forall d, Q d -> Q (set d)) -> Forall Q c ->
  Forall Q (fst (Collection.updateOne filter same set c)).
Proof.
  intros Hs. induction 1 as [|x c Hx Hc IH]; simpl; [constructor|].
  destruct (filter x).
  - destruct (same x); simpl; constructor; auto.
  - destruct (Collection.updateOne filter same set c) as [c' n].
    simpl in *. constructor; auto.
Qed.

Lemma deleteOne_no_match filter c :
  (forall d, In d c -> filter d = false) ->
  Collection.deleteOne filter c = (c, 0%N).
Proof.
  induction c as [|d c IH]; intros H; simpl; [reflexivity|].
  rewrite (H d (or_introl eq_refl)).
  rewrite IH; [reflexivity|]. intros x Hx. apply H. now right.
Qed.

Lemma deleteOne_keeps filter c d :
  In d c -> filter d = false -> In d (fst (Collection.deleteOne filter c)).
Proof.
  induction c as [|x c IH]; intros Hin Hf; simpl; [contradiction|].
  destruct (filter x) eqn:Hx.
  - destruct Hin as [->|Hin]; [congruence|exact Hin].
  - destruct (Collection.deleteOne filter c) as [c' n] eqn:E.
    simpl in *. destruct Hin as [->|Hin]; [now left|right; now apply IH].
Qed.

Lemma deleteOne_incl filter c d :
  In d (fst (Collection.deleteOne filter c)) -> In d c.
Proof.
  induction c as [|x c IH]; simpl; [tauto|].
  destruct (filter x).
  - simpl. now right.
  - destruct (Collection.deleteOne filter c) as [c' n].
    simpl in *. intros [->|H]; [now left|right; now apply IH].
Qed.

Lemma deleteOne_Forall (Q : A -> Prop) filter c :
  Forall Q c -> Forall Q (fst (Collection.deleteOne filter c)).
Proof.
  rewrite !Forall_forall. intros H d Hd. apply H.
  now apply deleteOne_incl in Hd.
Qed.

Lemma deleteOne_NoDup {K : Type} (key : A -> K) filter c :
  NoDup (map key c) ->
  NoDup (map key (fst (Collection.deleteOne filter c))).
Proof.
  induction c as [|x c IH]; simpl; intros H; [constructor|].
  inversion H as [|k ks Hnot Hnd]; subst.
  destruct (filter x); simpl; [exact Hnd|].
  destruct (Collection.deleteOne filter c) as [c' n] eqn:E.
  simpl in *. constructor; [|now apply IH].
  intros Hin. apply Hnot. apply in_map_iff in Hin as (y & Hy & Hin).
  apply in_map_iff. exists y. split; [exact Hy|].
  apply (deleteOne_incl filter). now rewrite E.
Qed.

Lemma findOne_none filter c :
  Collection.findOne filter c = None <->
  forall d, In d c -> filter d = false.
Proof.
  unfold Collection.findOne. split.
  - intros H d Hd. exact (find_none _ _ H d Hd).
  - induction c as [|x c IH]; intros H; simpl; [reflexivity|].
    rewrite (H x (or_introl eq_refl)). apply IH.
    intros d Hd. apply H. now right.
Qed.

Lemma findOne_some filter c d :
  Collection.findOne filter c = Some d -> In d c /\ filter d = true.
Proof. apply find_some. Qed.

End CollectionFacts.

(** ** The sort of a cursor *)

Section SortFacts.
Context {A : Type} (before : A -> A -> bool).

Lemma insertSorted_permutation d c :
  Permutation (Collection.insertSorted before d c) (d :: c).
Proof.
  induction c as [|x c IH]; simpl; [reflexivity|].
  destruct (before d x); [reflexivity|].
  rewrite IH. apply perm_swap.
Qed.

Lemma sort_permutation c : Permutation (Collection.sort before c) c.
Proof.
  induction c as [|x c IH]; simpl; [reflexivity|].
  rewrite insertSorted_permutation. now constructor.
Qed.

Hypothesis before_total : forall a b,
  before a b = true \/ before b a = true.
Hypothesis before_trans : forall a b c,
  before a b = true -> before b c = true -> before a c = true.

Lemma insertSorted_sorted d c :
  Sorted (fun a b => before a b = true) c ->
  Sorted (fun a b => before a b = true) (Collection.insertSorted before d c).
Proof.
  induction c as [|x c IH]; simpl; intros H.
  - repeat constructor.
  - destruct (before d x) eqn:E.
    + constructor; [exact H|]. now constructor.
    + apply Sorted_inv in H as [Hs Hh]. constructor; [now apply IH|].
      destruct c as [|y c]; simpl.
      * constructor. destruct (before_total x d); congruence.
      * destruct (before d y).
        -- constructor. destruct (before_total x d); congruence.
        -- constructor. now apply HdRel_inv in Hh.
Qed.

Lemma sort_sorted c :
  StronglySorted (fun a b => before a b = true) (Collection.sort before c).
Proof.
  apply Sorted_StronglySorted.
  - intros a b c'. apply before_trans.
  - induction c as [|x c IH]; simpl; [constructor|].
    now apply insertSorted_sorted.
Qed.

End SortFacts.

Lemma sample_engine_ok now : engine_ok (Sample.at_time now).
Proof. constructor; simpl; intros l; reflexivity. Qed.

(** ** What every reachable state satisfies *)

Section Invariants.
Variable P : platform.

Lemma wf_initial : wf P initial.
Proof. constructor; simpl; constructor. Qed.

Lemma wf_startServer s : wf P s -> wf P (startServer s).
Proof. intros [? ? ? ? ?]. constructor; assumption. Qed.

Lemma Forall_lt_succ {A : Type} (key : A -> N) (n : N) (l : list A) :
  Forall (fun d => (key d < n)%N) l ->
  Forall (fun d => (key d < N.succ n)%N) l.
Proof. apply Forall_impl. intros d. lia. Qed.

Lemma NoDup_snoc_fresh {A : Type} (key : A -> N) (n : N) (l : list A) (d : A) :
  Forall (fun x => (key x < n)%N) l -> key d = n ->
  NoDup (map key l) -> NoDup (map key (l ++ [d])).
Proof.
  intros Hlt Hd Hnd. rewrite map_app. simpl.
  apply NoDup_app; [exact Hnd|repeat constructor; intros []|].
  intros k Hk [<-|[]]. apply in_map_iff in Hk as (x & Hx & Hin).
  rewrite Forall_forall in Hlt. specialize (Hlt x Hin). lia.
Qed.

Lemma check_nil ok msg : check ok msg = [] <-> ok = true.
Proof. destruct ok; simpl; split; congruence. Qed.

Lemma wf_register e b s : wf P s -> wf P (snd (register P e b s)).
Proof.
  intros W. unfold register.
  destruct (check _ _ ++ check _ _ ++ check _ _) eqn:E; [|exact W].
  apply app_eq_nil in E as [_ E]. apply app_eq_nil in E as [Hlen _].
  apply check_nil in Hlen.
  destruct (Collection.findOne _ _) eqn:F; [exact W|].
  destruct W as [Wu We Wd Wl Wv].
  constructor; simpl; unfold Collection.insertOne.
  - apply Forall_app. split; [now apply Forall_lt_succ|].
    repeat constructor. simpl. lia.
  - now apply Forall_lt_succ.
  - exact Wd.
  - apply Forall_app. split; [exact Wl|]. repeat constructor. exact Hlen.
  - exact Wv.
Qed.

Lemma wf_login e b s : wf P s -> wf P (snd (login P e b s)).
Proof.
  intros W. unfold login.
  destruct (check _ _ ++ check _ _); [|exact W].
  destruct (Collection.findOne _ _); [|exact W].
  destruct (bcrypt_compare _ _ _); exact W.
Qed.

Lemma wf_authenticateToken e auth next s :
  (forall user, wf P (snd (next user s))) -> wf P s ->
  wf P (snd (authenticateToken P e auth next s)).
Proof.
  intros Hn W. unfold authenticateToken.
  destruct auth as [pieces|]; [|exact W].
  destruct (nth_error pieces 1) as [[[|]|t]|]; try exact W.
  destruct (jwt_verify _ _ _ _); [apply Hn|exact W].
Qed.

Lemma wf_addExpense b user s : wf P s -> wf P (snd (addExpense P b user s)).
Proof.
  intros W. unfold addExpense.
  destruct (validateEntry P b) eqn:V; [|exact W].
  destruct W as [Wu We Wd Wl Wv].
  constructor; simpl; unfold Collection.insertOne.
  - now apply Forall_lt_succ.
  - apply Forall_app. split; [now apply Forall_lt_succ|].
    repeat constructor. simpl. lia.
  - now apply NoDup_snoc_fresh with (n := next_id s).
  - exact Wl.
  - apply Forall_app. split; [exact Wv|]. repeat constructor. exact V.
Qed.

Lemma wf_updateExpense id b user s :
  wf P s -> wf P (snd (updateExpense P id b user s)).
Proof.
  intros W. unfold updateExpense.
  destruct (validateEntry P b) eqn:V; [|exact W].
  destruct id as [id|]; [|exact W].
  destruct (Collection.updateOne _ _ _ _) as [docs n] eqn:E.
  assert (Hd : docs = fst (Collection.updateOne
                             (ownedEntry id (Jwt.user_id user))
                             (sameFields b) (setFields b) (expenses s)))
    by now rewrite E.
  destruct W as [Wu We Wd Wl Wv].
  constructor; simpl; try assumption; subst docs.
  - now apply updateOne_Forall.
  - now rewrite updateOne_map.
  - apply updateOne_Forall; [|exact Wv]. intros d _. exact V.
Qed.

Lemma wf_deleteExpense id user s :
  wf P s -> wf P (snd (deleteExpense id user s)).
Proof.
  intros W. unfold deleteExpense.
  destruct id as [id|]; [|exact W].
  destruct (Collection.deleteOne _ _) as [docs n] eqn:E.
  assert (Hd : docs = fst (Collection.deleteOne
                             (ownedEntry id (Jwt.user_id user))
                             (expenses s)))
    by now rewrite E.
  destruct W as [Wu We Wd Wl Wv].
  constructor; simpl; try assumption; subst docs.
  - now apply deleteOne_Forall.
  - now apply deleteOne_NoDup.
  - now apply deleteOne_Forall.
Qed.

Lemma wf_handle e req s : wf P s -> wf P (snd (handle P e req s)).
Proof.
  intros W. unfold handle.
  destruct (negb (isDbReady s)); [exact W|].
  destruct req.
  - now apply wf_register.
  - now apply wf_login.
  - apply wf_authenticateToken; [|exact W].
    intros user. now apply wf_addExpense.
  - apply wf_authenticateToken; [|exact W]. intros user. exact W.
  - apply wf_authenticateToken; [|exact W].
    intros user. now apply wf_updateExpense.
  - apply wf_authenticateToken; [|exact W].
    intros user. now apply wf_deleteExpense.
  - apply wf_authenticateToken; [|exact W]. intros user. exact W.
Qed.

Lemma reachable_wf s : reachable P s -> wf P s.
Proof.
  induction 1 as [|s _ IH|e req s _ IH].
  - apply wf_initial.
  - now apply wf_startServer.
  - now apply wf_handle.
Qed.

End Invariants.

(** ** Small facts the handlers' proofs share *)

Lemma isEmpty_false (str : string) :
  str <> "" -> validator.isEmpty str = false.
Proof. destruct str; [congruence|reflexivity]. Qed.

Lemma isEmpty_true (str : string) :
  validator.isEmpty str = true <-> str = "".
Proof. destruct str; simpl; split; congruence. Qed.

Lemma isLength_nonempty (str : string) :
  validator.isLength str 4 = true -> str <> "".
Proof. intros H ->. discriminate. Qed.

Lemma NoDup_map_injective {A K : Type} (key : A -> K) (l : list A) (a b : A) :
  NoDup (map key l) -> In a l -> In b l -> key a = key b -> a = b.
Proof.
  induction l as [|x l IH]; simpl; intros Hnd Ha Hb Hk; [contradiction|].
  inversion Hnd as [|k ks Hnot Hrest]; subst.
  destruct Ha as [->|Ha], Hb as [->|Hb]; auto.
  - exfalso. apply Hnot. rewrite Hk. now apply in_map.
  - exfalso. apply Hnot. rewrite <- Hk. now apply in_map.
Qed.

Lemma findOne_by_name (l : list User.doc) (u : User.doc) :
  NoDup (map User.username l) -> In u l ->
  Collection.findOne
    (fun v => String.eqb (User.username v) (User.username u)) l = Some u.
Proof.
  intros Hnd Hin.
  destruct (Collection.findOne _ l) as [v|] eqn:F.
  - apply findOne_some in F as [Hv E]. apply String.eqb_eq in E.
    f_equal. now apply (NoDup_map_injective User.username l).
  - rewrite findOne_none in F. specialize (F u Hin). simpl in F.
    now rewrite String.eqb_refl in F.
Qed.

Lemma login_checks_pass (username password : string) :
  username <> "" -> password <> "" ->
  check (negb (validator.isEmpty username)) "Username is required"
  ++ check (negb (validator.isEmpty password)) "Password is required" = [].
Proof. intros Hu Hp. now rewrite !isEmpty_false. Qed.

Lemma handle_ready P e req s :
  isDbReady s = true ->
  handle P e req s =
  match req with
  | POST_register b => register P e b s
  | POST_login b => login P e b s
  | POST_expense auth b => authenticateToken P e auth (addExpense P b) s
  | GET_expenses auth => authenticateToken P e auth (getExpenses e) s
  | PUT_expense id auth b =>
      authenticateToken P e auth (updateExpense P id b) s
  | DELETE_expense id auth =>
      authenticateToken P e auth (deleteExpense id) s
  | GET_summary auth => authenticateToken P e auth (getSummary e) s
  end.
Proof. intros H. unfold handle. now rewrite H. Qed.

Lemma authenticateToken_Bearer P e t user next s :
  jwt_verify P t (JWT_SECRET P) (Date_now e) = Some user ->
  authenticateToken P e (Bearer t) next s = next user s.
Proof. intros H. unfold authenticateToken, Bearer. simpl. now rewrite H. Qed.

Lemma jwt_verify_sign P user_id username issued now :
  (now / 1000 < issued / 1000 + 3600)%Z ->
  jwt_verify P (jwt_sign P user_id username (JWT_SECRET P) issued)
    (JWT_SECRET P) now
  = Some (Jwt.payload (jwt_sign P user_id username (JWT_SECRET P) issued)).
Proof.
  intros H. unfold jwt_verify, jwt_sign. simpl.
  rewrite String.eqb_refl.
  destruct (Z.leb_spec (issued / 1000 + 3600) (now / 1000)); [lia|reflexivity].
Qed.

Lemma jwt_verify_expired P user_id username issued now :
  (issued + 3600000 < now)%Z ->
  jwt_verify P (jwt_sign P user_id username (JWT_SECRET P) issued)
    (JWT_SECRET P) now = None.
Proof.
  intros H. unfold jwt_verify, jwt_sign. simpl.
  rewrite String.eqb_refl.
  assert (issued / 1000 + 3600 <= now / 1000)%Z.
  { replace (issued / 1000 + 3600)%Z with ((issued + 3600 * 1000) / 1000)%Z
      by (rewrite Z.div_add; lia).
    apply Z.div_le_mono; lia. }
  destruct (Z.leb_spec (issued / 1000 + 3600) (now / 1000)); [reflexivity|lia].
Qed.

(** ** The readiness gate *)

(** C7, as the code has it: while the connection is not established every
    route, [/register] and [/login] included, answers 503 and leaves the
    state as it is; once it is established no route answers 503.  The flag
    is read at each request. *)
Theorem gate_every_request P e req s :
  (isDbReady s = false ->
   handle P e req s = send 503 (Error "Database not ready") s)
  /\ (isDbReady s = true -> status (fst (handle P e req s)) <> 503%N).
Proof.
  split; intros R.
  - unfold handle. now rewrite R.
  - rewrite handle_ready by exact R.
    assert (A : forall auth next,
               (forall user, status (fst (next user s)) <> 503%N) ->
               status (fst (authenticateToken P e auth next s)) <> 503%N).
    { intros auth next Hn. unfold authenticateToken.
      destruct auth as [pieces|]; [|discriminate].
      destruct (nth_error pieces 1) as [[[|]|t]|]; try discriminate.
      destruct (jwt_verify _ _ _ _); [apply Hn|discriminate]. }
    destruct req as [b|b|auth b|auth|id auth b|id auth|auth].
    + unfold register. destruct (check _ _ ++ _); [|discriminate].
      destruct (Collection.findOne _ _); discriminate.
    + unfold login. destruct (check _ _ ++ _); [|discriminate].
      destruct (Collection.findOne _ _); [|discriminate].
      destruct (bcrypt_compare _ _ _); discriminate.
    + apply A. intros user. unfold addExpense.
      destruct (validateEntry P b); discriminate.
    + apply A. intros user. discriminate.
    + apply A. intros user. unfold updateExpense.
      destruct (validateEntry P b); [|discriminate].
      destruct id; [|discriminate].
      destruct (Collection.updateOne _ _ _ _). discriminate.
    + apply A. intros user. unfold deleteExpense.
      destruct id; [|discriminate].
      destruct (Collection.deleteOne _ _). discriminate.
    + apply A. intros user. discriminate.
Qed.

Lemma gate_every_request_witness :
  handle Sample.process (Sample.at_time 0) (GET_summary None) initial
  = send 503 (Error "Database not ready") initial
  /\ status (fst (handle Sample.process (Sample.at_time 0)
                    (GET_summary None) (startServer initial))) <> 503%N.
Proof.
  split.
  - apply (proj1 (gate_every_request Sample.process (Sample.at_time 0)
                    (GET_summary None) initial)).
    reflexivity.
  - apply (proj2 (gate_every_request Sample.process (Sample.at_time 0)
                    (GET_summary None) (startServer initial))).
    reflexivity.
Defined.

(** C7, as it is stated, fails: before the connection is established
    [/register] and [/login] answer 503 like every other route. *)
Lemma gate_register_login_counterexample :
  isDbReady initial = false
  /\ status (fst (handle Sample.process (Sample.at_time 0)
                    (POST_register {| Credentials.username := "alice";
                                      Credentials.password := "pass1234" |})
                    initial)) = 503%N
  /\ status (fst (handle Sample.process (Sample.at_time 0)
                    (POST_login {| Credentials.username := "alice";
                                   Credentials.password := "pass1234" |})
                    initial)) = 503%N.
Proof. repeat split. Qed.

(** ** Login *)

(** C8: for a non-empty user name and a non-empty password, [/login]
    answers 401 "User not found" exactly when no user has that name, and 401
    "Invalid password" exactly when the user the lookup returns, the first
    one stored under that name, has a stored hash the password does not
    match; where no two users share a name, that is exactly when a user has
    that name and the password does not match the hash stored for it.  The
    two messages differ. *)
Theorem login_failures P e s username password :
  isDbReady s = true ->
  username <> "" -> password <> "" ->
  (handle P e (POST_login (credentials username password)) s
   = send 401 (Error "User not found") s
   <-> forall u, In u (users s) -> User.username u <> username)
  /\ (handle P e (POST_login (credentials username password)) s
      = send 401 (Error "Invalid password") s
      <-> exists u, findByUsername username s = Some u
                    /\ bcrypt_compare P password (User.password u) = false)
  /\ (NoDup (map User.username (users s)) ->
      (handle P e (POST_login (credentials username password)) s
       = send 401 (Error "Invalid password") s
       <-> exists u, In u (users s) /\ User.username u = username
                     /\ bcrypt_compare P password (User.password u)
                        = false))
  /\ "User not found" <> "Invalid password".
Proof.
  intros Hready Hu Hp.
  rewrite handle_ready by exact Hready.
  unfold login, credentials, findByUsername. simpl.
  rewrite login_checks_pass by assumption.
  destruct (Collection.findOne _ _) as [u|] eqn:F.
  - apply findOne_some in F as [Hin E]. apply String.eqb_eq in E.
    split; [|split; [|split]].
    + split.
      * unfold send. intros H. destruct (bcrypt_compare _ _ _); discriminate.
      * intros H. exfalso. exact (H u Hin E).
    + split.
      * intros H. exists u. split; [reflexivity|]. unfold send in H.
        destruct (bcrypt_compare _ _ _); [discriminate|reflexivity].
      * intros (v & Hv & Hc). injection Hv as <-. now rewrite Hc.
    + intros Hnd. split.
      * intros H. exists u. repeat split; auto. unfold send in H.
        destruct (bcrypt_compare _ _ _); [discriminate|reflexivity].
      * intros (v & Hv & Ev & Hc).
        assert (v = u) as ->.
        { apply (NoDup_map_injective User.username (users s));
            [exact Hnd|exact Hv|exact Hin|congruence]. }
        now rewrite Hc.
    + discriminate.
  - rewrite findOne_none in F.
    assert (Hnone : forall u, In u (users s) -> User.username u <> username).
    { intros u Hin E. specialize (F u Hin). simpl in F.
      rewrite E, String.eqb_refl in F. discriminate. }
    split; [|split; [|split]].
    + split; [intros _; exact Hnone|reflexivity].
    + split; [discriminate|]. intros (u & Hf & _). discriminate.
    + intros _. split; [discriminate|].
      intros (u & Hin & E & _). exfalso. exact (Hnone u Hin E).
    + discriminate.
Qed.

(** For the user the lookup returns under a name, and a non-empty password:
    when the password matches the stored hash, [/login] answers with a token
    which [jwt.verify] accepts within the hour, and [authenticateToken] then
    hands the route the identity of that user; when it does not, the answer
    is 401, without a token. *)
Lemma login_token_identifies_user P e s u password :
  isDbReady s = true ->
  findByUsername (User.username u) s = Some u ->
  User.username u <> "" -> password <> "" ->
  (bcrypt_compare P password (User.password u) = true ->
   exists t,
     handle P e (POST_login (credentials (User.username u) password)) s
     = send 200 (Token t) s
     /\ forall e',
          (Date_now e' / 1000 < Date_now e / 1000 + 3600)%Z ->
          exists user,
            jwt_verify P t (JWT_SECRET P) (Date_now e') = Some user
            /\ Jwt.user_id user = User._id u
            /\ Jwt.username user = User.username u
            /\ forall next s',
                 authenticateToken P e' (Bearer t) next s' = next user s')
  /\ (bcrypt_compare P password (User.password u) = false ->
      handle P e (POST_login (credentials (User.username u) password)) s
      = send 401 (Error "Invalid password") s).
Proof.
  intros Hready Hfind Hu Hp.
  rewrite handle_ready by exact Hready.
  unfold login, credentials. simpl.
  rewrite login_checks_pass by assumption.
  unfold findByUsername in Hfind. rewrite Hfind.
  split; intros Hc; rewrite Hc; [|reflexivity].
  eexists. split; [reflexivity|].
  intros e' Ht. eexists. split; [now apply jwt_verify_sign|].
  repeat split.
  intros next s'. apply authenticateToken_Bearer. now apply jwt_verify_sign.
Qed.

(** C4: the token [/login] issues carries [iat], the second of its
    issuance, and [exp = iat + 3600]; more than an hour after its issuance
    [jwt.verify] refuses it and [authenticateToken] answers 403. *)
Theorem token_expires_after_one_hour P e s b t s' :
  handle P e (POST_login b) s = send 200 (Token t) s' ->
  Jwt.iat (Jwt.payload t) = (Date_now e / 1000)%Z
  /\ Jwt.exp (Jwt.payload t) = (Jwt.iat (Jwt.payload t) + 3600)%Z
  /\ forall e',
       (Date_now e + 3600 * 1000 < Date_now e')%Z ->
       jwt_verify P t (JWT_SECRET P) (Date_now e') = None
       /\ forall next s'',
            authenticateToken P e' (Bearer t) next s''
            = send 403 (Error "Invalid token") s''.
Proof.
  unfold handle, login, send.
  destruct (negb (isDbReady s)); [discriminate|].
  destruct (check _ _ ++ check _ _); [|discriminate].
  destruct (Collection.findOne _ _) as [u|]; [|discriminate].
  destruct (bcrypt_compare _ _ _); [|discriminate].
  intros H. injection H as Ht _. subst t.
  repeat split.
  - now apply jwt_verify_expired.
  - intros next s''. unfold authenticateToken, Bearer. simpl nth_error.
    cbv iota. now rewrite jwt_verify_expired.
Qed.

Lemma registered_reachable : reachable Sample.process Scenario.registered.
Proof.
  exact (reachable_handle Sample.process _ _
           (reachable_startServer _ (reachable_initial _))).
Qed.

Lemma login_failures_witness :
  (handle Sample.process (Sample.at_time 5000)
     (POST_login (credentials "bob" "secret")) Scenario.registered
   = send 401 (Error "User not found") Scenario.registered
   <-> forall u, In u (users Scenario.registered) ->
                 User.username u <> "bob")
  /\ (handle Sample.process (Sample.at_time 5000)
        (POST_login (credentials "bob" "secret")) Scenario.registered
      = send 401 (Error "Invalid password") Scenario.registered
      <-> exists u, findByUsername "bob" Scenario.registered = Some u
                    /\ bcrypt_compare Sample.process "secret"
                         (User.password u) = false)
  /\ (NoDup (map User.username (users Scenario.registered)) ->
      (handle Sample.process (Sample.at_time 5000)
         (POST_login (credentials "bob" "secret")) Scenario.registered
       = send 401 (Error "Invalid password") Scenario.registered
       <-> exists u, In u (users Scenario.registered)
                     /\ User.username u = "bob"
                     /\ bcrypt_compare Sample.process "secret"
                          (User.password u) = false))
  /\ "User not found" <> "Invalid password".
Proof.
  apply (login_failures Sample.process (Sample.at_time 5000)
           Scenario.registered "bob" "secret").
  - reflexivity.
  - discriminate.
  - discriminate.
Defined.

Example login_of_alice :
  (exists t,
     handle Sample.process (Sample.at_time 5000)
       (POST_login Scenario.alice) Scenario.registered
     = send 200 (Token t) Scenario.registered
     /\ forall e',
          (Date_now e' / 1000 < 5000 / 1000 + 3600)%Z ->
          exists user,
            jwt_verify Sample.process t (JWT_SECRET Sample.process)
              (Date_now e') = Some user
            /\ Jwt.user_id user = 0%N
            /\ Jwt.username user = "alice"
            /\ forall next s',
                 authenticateToken Sample.process e' (Bearer t) next s'
                 = next user s')
  /\ handle Sample.process (Sample.at_time 5000)
       (POST_login (credentials "alice" "pass12345")) Scenario.registered
     = send 401 (Error "Invalid password") Scenario.registered.
Proof.
  split.
  - apply (proj1 (login_token_identifies_user Sample.process
                    (Sample.at_time 5000) Scenario.registered
                    Scenario.aliceDoc "pass1234"
                    eq_refl eq_refl ltac:(discriminate)
                    ltac:(discriminate))).
    reflexivity.
  - apply (proj2 (login_token_identifies_user Sample.process
                    (Sample.at_time 5000) Scenario.registered
                    Scenario.aliceDoc "pass12345"
                    eq_refl eq_refl ltac:(discriminate)
                    ltac:(discriminate))).
    reflexivity.
Qed.

Lemma token_expires_after_one_hour_witness :
  Jwt.iat (Jwt.payload Scenario.aliceToken) = 5%Z
  /\ Jwt.exp (Jwt.payload Scenario.aliceToken) = 3605%Z
  /\ forall e',
       (5000 + 3600 * 1000 < Date_now e')%Z ->
       jwt_verify Sample.process Scenario.aliceToken
         (JWT_SECRET Sample.process) (Date_now e') = None
       /\ forall next s'',
            authenticateToken Sample.process e'
              (Bearer Scenario.aliceToken) next s''
            = send 403 (Error "Invalid token") s''.
Proof.
  apply (token_expires_after_one_hour Sample.process (Sample.at_time 5000)
           Scenario.registered Scenario.alice Scenario.aliceToken
           Scenario.registered).
  reflexivity.
Defined.

(** ** The ledger: one owner never reaches another owner's entries *)

Lemma authenticateToken_authenticated P e auth user next s :
  authenticated P e auth = Some user ->
  authenticateToken P e auth next s = next user s.
Proof.
  unfold authenticated, authenticateToken.
  destruct auth as [pieces|]; [|discriminate].
  destruct (nth_error pieces 1) as [[[|]|t]|]; try discriminate.
  now intros ->.
Qed.

Lemma filter_nothing {A : Type} (f : A -> bool) (l : list A) :
  (forall d, In d l -> f d = false) -> filter f l = [].
Proof.
  induction l as [|x l IH]; intros H; simpl; [reflexivity|].
  rewrite (H x (or_introl eq_refl)). apply IH.
  intros d Hd. apply H. now right.
Qed.

Lemma state_eta s :
  {| isDbReady := isDbReady s; users := users s;
     expenses := expenses s; next_id := next_id s |} = s.
Proof. now destruct s. Qed.

Lemma ownedBy_true owner d :
  ownedBy owner d = true <-> Expense.user_id d = owner.
Proof. apply N.eqb_eq. Qed.

Lemma ownedEntry_true id owner d :
  ownedEntry id owner d = true <->
  Expense._id d = id /\ Expense.user_id d = owner.
Proof.
  unfold ownedEntry. now rewrite andb_true_iff, !N.eqb_eq.
Qed.

Lemma ownedEntry_false id owner d :
  Expense._id d <> id \/ Expense.user_id d <> owner ->
  ownedEntry id owner d = false.
Proof.
  intros H. destruct (ownedEntry id owner d) eqn:E; [|reflexivity].
  apply ownedEntry_true in E. tauto.
Qed.

(** In a collection without two equal [_id], the filter of another owner
    on the [_id] of an entry matches nothing. *)
Lemma foreign_entry_unmatched docs x owner :
  NoDup (map Expense._id docs) -> In x docs ->
  Expense.user_id x <> owner ->
  forall d, In d docs -> ownedEntry (Expense._id x) owner d = false.
Proof.
  intros Hnd Hx Hne d Hd.
  destruct (ownedEntry (Expense._id x) owner d) eqn:E; [|reflexivity].
  apply ownedEntry_true in E as [Hid Ho].
  assert (d = x) as -> by (apply (NoDup_map_injective Expense._id docs); auto).
  contradiction.
Qed.

Lemma updateExpense_unmatched P id b user s :
  validateEntry P b = [] ->
  (forall d, In d (expenses s) ->
             ownedEntry id (Jwt.user_id user) d = false) ->
  updateExpense P (Some id) b user s = send 200 (Updated 0) s.
Proof.
  intros V H. unfold updateExpense. rewrite V.
  rewrite updateOne_no_match by exact H. now rewrite state_eta.
Qed.

Lemma updateExpense_invalid P id b user s :
  validateEntry P b <> [] ->
  updateExpense P id b user s = send 400 (Errors (validateEntry P b)) s.
Proof.
  intros V. unfold updateExpense.
  destruct (validateEntry P b); [contradiction|reflexivity].
Qed.

Lemma deleteExpense_unmatched id user s :
  (forall d, In d (expenses s) ->
             ownedEntry id (Jwt.user_id user) d = false) ->
  deleteExpense (Some id) user s = send 200 (Deleted 0) s.
Proof.
  intros H. unfold deleteExpense.
  rewrite deleteOne_no_match by exact H. now rewrite state_eta.
Qed.

Lemma updateExpense_keeps P id b user s d :
  In d (expenses s) ->
  Expense._id d <> id \/ Expense.user_id d <> Jwt.user_id user ->
  In d (expenses (snd (updateExpense P (Some id) b user s))).
Proof.
  intros Hin Hne. unfold updateExpense.
  destruct (validateEntry P b); [|exact Hin].
  destruct (Collection.updateOne _ _ _ _) as [docs n] eqn:E. simpl.
  replace docs with (fst (Collection.updateOne
                            (ownedEntry id (Jwt.user_id user))
                            (sameFields b) (setFields b) (expenses s)))
    by now rewrite E.
  apply updateOne_keeps; [exact Hin|now apply ownedEntry_false].
Qed.

Lemma deleteExpense_keeps id user s d :
  In d (expenses s) ->
  Expense._id d <> id \/ Expense.user_id d <> Jwt.user_id user ->
  In d (expenses (snd (deleteExpense (Some id) user s))).
Proof.
  intros Hin Hne. unfold deleteExpense.
  destruct (Collection.deleteOne _ _) as [docs n] eqn:E. simpl.
  replace docs with (fst (Collection.deleteOne
                            (ownedEntry id (Jwt.user_id user))
                            (expenses s)))
    by now rewrite E.
  apply deleteOne_keeps; [exact Hin|now apply ownedEntry_false].
Qed.

(** C1: let [x] be an entry of the collection and let the request be
    authenticated as another owner.  Then [GET /expenses] answers with
    entries of the authenticated owner only, [x] not among them;
    [PUT /expense/:id] on the [_id] of [x] leaves the state as it is and,
    when the body passes validation, answers [{updated: 0}];
    [DELETE /expense/:id] on the [_id] of [x] answers [{deleted: 0}] and
    leaves the state as it is.  Whatever [:id] is, an update or a deletion
    keeps every entry that has another [_id] or another owner; and what
    [GET /expenses] and [GET /summary] answer depends on the entries of the
    authenticated owner alone. *)
Theorem owner_isolation P e s auth user x :
  reachable P s -> isDbReady s = true -> engine_ok e ->
  authenticated P e auth = Some user ->
  In x (expenses s) -> Expense.user_id x <> Jwt.user_id user ->
  (exists l,
     handle P e (GET_expenses auth) s = send 200 (Expenses l) s
     /\ ~ In x l
     /\ forall d, In d l -> In d (expenses s)
                            /\ Expense.user_id d = Jwt.user_id user)
  /\ (forall b,
        snd (handle P e (PUT_expense (Some (Expense._id x)) auth b) s) = s
        /\ (validateEntry P b = [] ->
            handle P e (PUT_expense (Some (Expense._id x)) auth b) s
            = send 200 (Updated 0) s))
  /\ handle P e (DELETE_expense (Some (Expense._id x)) auth) s
     = send 200 (Deleted 0) s
  /\ (forall id b d,
        In d (expenses s) ->
        Expense._id d <> id \/ Expense.user_id d <> Jwt.user_id user ->
        In d (expenses (snd (handle P e (PUT_expense (Some id) auth b) s)))
        /\ In d (expenses (snd (handle P e (DELETE_expense (Some id) auth)
                                  s))))
  /\ (forall s2,
        isDbReady s2 = true ->
        filter (ownedBy (Jwt.user_id user)) (expenses s2)
        = filter (ownedBy (Jwt.user_id user)) (expenses s) ->
        body (fst (handle P e (GET_expenses auth) s2))
        = body (fst (handle P e (GET_expenses auth) s))
        /\ body (fst (handle P e (GET_summary auth) s2))
           = body (fst (handle P e (GET_summary auth) s))).
Proof.
  intros R Hready He Ha Hx Hne. apply reachable_wf in R.
  pose proof (foreign_entry_unmatched (expenses s) x (Jwt.user_id user)
                (wf_ids_distinct P s R) Hx Hne) as Hun.
  repeat split.
  - eexists. rewrite handle_ready by exact Hready.
    rewrite (authenticateToken_authenticated P e auth user) by exact Ha.
    split; [reflexivity|].
    assert (Hl : forall d,
               In d (Collection.sort (dateOrder (-1))
                       (scanOrder e
                          (filter (ownedBy (Jwt.user_id user))
                             (expenses s)))) ->
               In d (expenses s) /\ Expense.user_id d = Jwt.user_id user).
    { intros d Hd.
      apply (Permutation_in d (sort_permutation _ _)) in Hd.
      apply (Permutation_in d (scan_permutes e He _)) in Hd.
      apply filter_In in Hd as [Hd Ho]. now apply ownedBy_true in Ho. }
    split; [|exact Hl].
    intros Hin. apply Hl in Hin as [_ Ho]. contradiction.
  - rewrite handle_ready by exact Hready.
    rewrite (authenticateToken_authenticated P e auth user) by exact Ha.
    destruct (validateEntry P b) eqn:V.
    + now rewrite updateExpense_unmatched.
    + rewrite updateExpense_invalid; [reflexivity|]. now rewrite V.
  - intros V. rewrite handle_ready by exact Hready.
    rewrite (authenticateToken_authenticated P e auth user) by exact Ha.
    now apply updateExpense_unmatched.
  - rewrite handle_ready by exact Hready.
    rewrite (authenticateToken_authenticated P e auth user) by exact Ha.
    now apply deleteExpense_unmatched.
  - rewrite handle_ready by exact Hready.
    rewrite (authenticateToken_authenticated P e auth user) by exact Ha.
    now apply updateExpense_keeps.
  - rewrite handle_ready by exact Hready.
    rewrite (authenticateToken_authenticated P e auth user) by exact Ha.
    now apply deleteExpense_keeps.
  - rewrite !handle_ready by assumption.
    rewrite !(authenticateToken_authenticated P e auth user) by exact Ha.
    unfold getExpenses. simpl.
    match goal with H : filter _ _ = filter _ _ |- _ => now rewrite H end.
  - rewrite !handle_ready by assumption.
    rewrite !(authenticateToken_authenticated P e auth user) by exact Ha.
    unfold getSummary, summarize. simpl.
    match goal with H : filter _ _ = filter _ _ |- _ => now rewrite H end.
Qed.

Lemma sameFields_fieldsOf x : sameFields (fieldsOf x) x = true.
Proof.
  unfold sameFields, fieldsOf. simpl. rewrite !String.eqb_refl.
  destruct (Expense.amount x) as [q|t]; simpl.
  - now rewrite (proj2 (Qeq_bool_iff q q) (Qeq_refl q)).
  - now rewrite String.eqb_refl.
Qed.

(** C10: when the owner of a stored entry updates it with the values it
    already has, the filter matches the entry, and the answer is
    [{updated: 0}] with the state as it was, which is also the answer to an
    update whose filter matches no entry, be it for its [_id] or for its
    owner. *)
Theorem update_with_stored_values P e s auth user x :
  reachable P s -> isDbReady s = true ->
  authenticated P e auth = Some user ->
  In x (expenses s) -> Expense.user_id x = Jwt.user_id user ->
  ownedEntry (Expense._id x) (Jwt.user_id user) x = true
  /\ handle P e (PUT_expense (Some (Expense._id x)) auth (fieldsOf x)) s
     = send 200 (Updated 0) s
  /\ forall id,
       (forall d, In d (expenses s) ->
                  ownedEntry id (Jwt.user_id user) d = false) ->
       handle P e (PUT_expense (Some id) auth (fieldsOf x)) s
       = send 200 (Updated 0) s.
Proof.
  intros R Hready Ha Hx Ho. apply reachable_wf in R.
  assert (V : validateEntry P (fieldsOf x) = []).
  { pose proof (wf_entries_valid P s R) as F. rewrite Forall_forall in F.
    now apply F. }
  repeat split.
  - now apply ownedEntry_true.
  - rewrite handle_ready by exact Hready.
    rewrite (authenticateToken_authenticated P e auth user) by exact Ha.
    unfold updateExpense. rewrite V.
    rewrite updateOne_same; [now rewrite state_eta|].
    intros d Hd Hm. apply ownedEntry_true in Hm as [Hid _].
    assert (d = x) as ->
      by (apply (NoDup_map_injective Expense._id (expenses s));
          [exact (wf_ids_distinct P s R)|exact Hd|exact Hx|exact Hid]).
    apply sameFields_fieldsOf.
  - intros id Hun. rewrite handle_ready by exact Hready.
    rewrite (authenticateToken_authenticated P e auth user) by exact Ha.
    now apply updateExpense_unmatched.
Qed.

Lemma withLunch_reachable : reachable Sample.process Scenario.withLunch.
Proof.
  exact (reachable_handle Sample.process _ _
           (reachable_handle Sample.process _ _ registered_reachable)).
Qed.

Example withLunch_expenses :
  expenses Scenario.withLunch = [Scenario.lunchDoc].
Proof. reflexivity. Qed.

Lemma owner_isolation_witness :
  (exists l,
     handle Sample.process (Sample.at_time 7000)
       (GET_expenses (Bearer Scenario.bobToken)) Scenario.withLunch
     = send 200 (Expenses l) Scenario.withLunch
     /\ ~ In Scenario.lunchDoc l
     /\ forall d, In d l -> In d (expenses Scenario.withLunch)
                            /\ Expense.user_id d = 1%N)
  /\ (forall b,
        snd (handle Sample.process (Sample.at_time 7000)
               (PUT_expense (Some 2%N) (Bearer Scenario.bobToken) b)
               Scenario.withLunch) = Scenario.withLunch
        /\ (validateEntry Sample.process b = [] ->
            handle Sample.process (Sample.at_time 7000)
              (PUT_expense (Some 2%N) (Bearer Scenario.bobToken) b)
              Scenario.withLunch
            = send 200 (Updated 0) Scenario.withLunch))
  /\ handle Sample.process (Sample.at_time 7000)
       (DELETE_expense (Some 2%N) (Bearer Scenario.bobToken))
       Scenario.withLunch
     = send 200 (Deleted 0) Scenario.withLunch
  /\ (forall id b d,
        In d (expenses Scenario.withLunch) ->
        Expense._id d <> id \/ Expense.user_id d <> 1%N ->
        In d (expenses
                (snd (handle Sample.process (Sample.at_time 7000)
                        (PUT_expense (Some id) (Bearer Scenario.bobToken) b)
                        Scenario.withLunch)))
        /\ In d (expenses
                   (snd (handle Sample.process (Sample.at_time 7000)
                           (DELETE_expense (Some id)
                              (Bearer Scenario.bobToken))
                           Scenario.withLunch))))
  /\ (forall s2,
        isDbReady s2 = true ->
        filter (ownedBy 1%N) (expenses s2)
        = filter (ownedBy 1%N) (expenses Scenario.withLunch) ->
        body (fst (handle Sample.process (Sample.at_time 7000)
                     (GET_expenses (Bearer Scenario.bobToken)) s2))
        = body (fst (handle Sample.process (Sample.at_time 7000)
                       (GET_expenses (Bearer Scenario.bobToken))
                       Scenario.withLunch))
        /\ body (fst (handle Sample.process (Sample.at_time 7000)
                        (GET_summary (Bearer Scenario.bobToken)) s2))
           = body (fst (handle Sample.process (Sample.at_time 7000)
                          (GET_summary (Bearer Scenario.bobToken))
                          Scenario.withLunch))).
Proof.
  apply (owner_isolation Sample.process (Sample.at_time 7000)
           Scenario.withLunch (Bearer Scenario.bobToken)
           (Jwt.payload Scenario.bobToken) Scenario.lunchDoc).
  - exact withLunch_reachable.
  - reflexivity.
  - apply sample_engine_ok.
  - reflexivity.
  - left. reflexivity.
  - discriminate.
Defined.

Lemma update_with_stored_values_witness :
  ownedEntry 2%N 0%N Scenario.lunchDoc = true
  /\ handle Sample.process (Sample.at_time 7000)
       (PUT_expense (Some 2%N) (Bearer Scenario.aliceToken) Scenario.lunch)
       Scenario.withLunch
     = send 200 (Updated 0) Scenario.withLunch
  /\ forall id,
       (forall d, In d (expenses Scenario.withLunch) ->
                  ownedEntry id 0%N d = false) ->
       handle Sample.process (Sample.at_time 7000)
         (PUT_expense (Some id) (Bearer Scenario.aliceToken) Scenario.lunch)
         Scenario.withLunch
       = send 200 (Updated 0) Scenario.withLunch.
Proof.
  apply (update_with_stored_values Sample.process (Sample.at_time 7000)
           Scenario.withLunch (Bearer Scenario.aliceToken)
           (Jwt.payload Scenario.aliceToken) Scenario.lunchDoc).
  - exact withLunch_reachable.
  - reflexivity.
  - reflexivity.
  - left. reflexivity.
  - reflexivity.
Defined.

(** ** The monthly summary *)

Lemma numbers_app l l' :
  Spec.numbers (l ++ l') = Spec.numbers l ++ Spec.numbers l'.
Proof.
  induction l as [|[q|t] l IH]; simpl; [reflexivity| |exact IH].
  now rewrite IH.
Qed.

Lemma sum_app l l' : (Spec.sum (l ++ l') == Spec.sum l + Spec.sum l')%Q.
Proof.
  induction l as [|q l IH]; simpl.
  - now rewrite Qplus_0_l.
  - rewrite IH. apply Qplus_assoc.
Qed.

Lemma sum_step_compat acc acc' v :
  (acc == acc')%Q -> (sum_step acc v == sum_step acc' v)%Q.
Proof. intros H. destruct v as [q|t]; simpl; [now rewrite H|exact H]. Qed.

(** A further entry of the month adds what [$cond] selects of it. *)
Lemma total_snoc_same type docs d :
  (Spec.total type (period d) (docs ++ [d])
   == sum_step (Spec.total type (period d) docs) (cond_amount type d))%Q.
Proof.
  unfold Spec.total, Spec.inBucket, Spec.monthOf, cond_amount, period.
  rewrite filter_app, map_app, numbers_app, sum_app. simpl.
  rewrite String.eqb_refl. simpl.
  destruct (String.eqb (Expense.type d) type); simpl.
  - destruct (Expense.amount d) as [q|t]; simpl.
    + now rewrite Qplus_0_r.
    + apply Qplus_0_r.
  - reflexivity.
Qed.

(** An entry of another month adds nothing. *)
Lemma total_snoc_other type month docs d :
  period d <> month ->
  Spec.total type month (docs ++ [d]) = Spec.total type month docs.
Proof.
  intros H. unfold Spec.total, Spec.inBucket, Spec.monthOf.
  rewrite filter_app. simpl. fold (period d).
  destruct (String.eqb_spec (period d) month) as [E|_]; [contradiction|].
  simpl. now rewrite app_nil_r.
Qed.

Lemma total_no_entry type month docs :
  (forall d, In d docs -> period d = month -> Expense.type d <> type) ->
  Spec.total type month docs = 0%Q.
Proof.
  intros H. unfold Spec.total.
  replace (filter (Spec.inBucket month type) docs) with (@nil Expense.doc);
    [reflexivity|].
  symmetry. induction docs as [|d docs IH]; simpl; [reflexivity|].
  unfold Spec.inBucket at 1. unfold Spec.monthOf. fold (period d).
  destruct (String.eqb_spec (period d) month) as [E|_]; simpl.
  - destruct (String.eqb_spec (Expense.type d) type) as [T|_]; simpl.
    + exfalso. exact (H d (or_introl eq_refl) E T).
    + apply IH. intros x Hx. apply H. now right.
  - apply IH. intros x Hx. apply H. now right.
Qed.

Lemma accumulate_ids d rows :
  map Bucket._id (accumulate d rows)
  = if existsb (fun r => String.eqb (Bucket._id r) (period d)) rows
    then map Bucket._id rows
    else map Bucket._id rows ++ [period d].
Proof.
  induction rows as [|r rows IH]; simpl; [reflexivity|].
  destruct (String.eqb (Bucket._id r) (period d)); simpl; [reflexivity|].
  rewrite IH. now destruct (existsb _ rows).
Qed.

Lemma accumulate_In d rows r' :
  NoDup (map Bucket._id rows) ->
  In r' (accumulate d rows) ->
  (In r' rows /\ Bucket._id r' <> period d)
  \/ (exists r, In r rows /\ Bucket._id r = period d /\ r' = addTo r d)
  \/ ((forall r, In r rows -> Bucket._id r <> period d)
      /\ r' = addTo (newRow (period d)) d).
Proof.
  induction rows as [|r rows IH]; simpl; intros Hnd Hin.
  - destruct Hin as [<-|[]]. right. right. split; [intros r []|reflexivity].
  - inversion Hnd as [|k ks Hnot Hrest]; subst.
    destruct (String.eqb_spec (Bucket._id r) (period d)) as [E|N].
    + destruct Hin as [<-|Hin].
      * right. left. exists r. auto.
      * left. split; [now right|]. intros E'. apply Hnot.
        rewrite E, <- E'. now apply in_map.
    + destruct Hin as [<-|Hin]; [left; auto|].
      destruct (IH Hrest Hin) as [[H1 H2]|[(r0 & H1 & H2 & H3)|[H1 H2]]].
      * left. auto.
      * right. left. exists r0. auto.
      * right. right. split; [|exact H2].
        intros r0 [<-|H0]; [exact N|now apply H1].
Qed.

Lemma existsb_id_In rows key :
  existsb (fun r => String.eqb (Bucket._id r) key) rows = true <->
  In key (map Bucket._id rows).
Proof.
  rewrite existsb_exists, in_map_iff. split.
  - intros (r & Hr & E). apply String.eqb_eq in E. eauto.
  - intros (r & E & Hr). exists r. split; [exact Hr|].
    now apply String.eqb_eq.
Qed.

Lemma grouped_accumulate seen rows d :
  grouped seen rows -> grouped (seen ++ [d]) (accumulate d rows).
Proof.
  intros [Hnd Hmonths Htotals]. constructor.
  - rewrite accumulate_ids.
    destruct (existsb _ rows) eqn:E; [exact Hnd|].
    apply NoDup_app; [exact Hnd|repeat constructor; intros []|].
    intros k Hk [<-|[]].
    apply existsb_id_In in Hk. congruence.
  - intros month. rewrite accumulate_ids.
    destruct (existsb _ rows) eqn:E.
    + rewrite Hmonths. split.
      * intros (x & Hx & Ex). exists x. split; [|exact Ex].
        apply in_or_app. now left.
      * intros (x & Hx & Ex). apply in_app_or in Hx as [Hx|[<-|[]]]; eauto.
        apply Hmonths. rewrite <- Ex. now apply existsb_id_In.
    + rewrite in_app_iff, Hmonths. simpl. split.
      * intros [(x & Hx & Ex)|[<-|[]]].
        -- exists x. split; [|exact Ex]. apply in_or_app. now left.
        -- exists d. split; [|reflexivity]. apply in_or_app. right. now left.
      * intros (x & Hx & Ex). apply in_app_or in Hx as [Hx|[<-|[]]]; eauto.
  - intros r' Hin.
    destruct (accumulate_In d rows r' Hnd Hin)
      as [[H1 H2]|[(r & H1 & H2 & ->)|[H1 ->]]].
    + rewrite !total_snoc_other by congruence. now apply Htotals.
    + simpl. rewrite H2, !total_snoc_same.
      destruct (Htotals r H1) as [Hi He]. rewrite H2 in Hi, He.
      split; now apply sum_step_compat.
    + simpl. rewrite !total_snoc_same.
      assert (Z : forall type,
                 Spec.total type (period d) seen = 0%Q).
      { intros type. apply total_no_entry. intros x Hx Ex _.
        assert (Hk : In (period d) (map Bucket._id rows))
          by (apply Hmonths; eauto).
        apply in_map_iff in Hk as (r & Er & Hr). exact (H1 r Hr Er). }
      rewrite !Z. split; reflexivity.
Qed.

Lemma grouped_fold docs : forall seen rows,
  grouped seen rows ->
  grouped (seen ++ docs) (fold_left (fun rows d => accumulate d rows) docs rows).
Proof.
  induction docs as [|d docs IH]; intros seen rows G; simpl.
  - now rewrite app_nil_r.
  - replace (seen ++ d :: docs) with ((seen ++ [d]) ++ docs)
      by now rewrite <- app_assoc.
    apply IH. now apply grouped_accumulate.
Qed.

Lemma grouped_group docs : grouped docs (group docs).
Proof.
  apply (grouped_fold docs [] []). constructor; simpl.
  - constructor.
  - intros month. split; [intros []|intros (d & [] & _)].
  - intros r [].
Qed.

Lemma grouped_permutation docs rows rows' :
  Permutation rows' rows -> grouped docs rows -> grouped docs rows'.
Proof.
  intros Hp [Hnd Hmonths Htotals]. constructor.
  - apply (Permutation_NoDup (l := map Bucket._id rows)); [|exact Hnd].
    symmetry. now apply Permutation_map.
  - intros month. rewrite <- Hmonths. split; apply Permutation_in.
    + now apply Permutation_map.
    + symmetry. now apply Permutation_map.
  - intros r Hr. apply Htotals. now apply (Permutation_in r Hp).
Qed.

(** What [GET /summary] answers: one row for each month (the first seven
    bytes of [date]) in which the authenticated owner has an entry, no two
    rows for one month; [total_income] of a row is the sum over the owner's
    entries of type income in that month of the amounts that are numbers,
    and [total_expense] the sum over those of type expense; a type without
    an entry in the month is reported 0; an owner without entries is answered
    the empty sequence.  Nothing is said of the order of the rows, which is
    the engine's. *)
Lemma summary_totals P e s auth user :
  isDbReady s = true -> engine_ok e ->
  authenticated P e auth = Some user ->
  exists rows,
    handle P e (GET_summary auth) s = send 200 (Summary rows) s
    /\ NoDup (map Bucket._id rows)
    /\ (forall month,
          In month (map Bucket._id rows) <->
          exists d, In d (expenses s)
                    /\ Expense.user_id d = Jwt.user_id user
                    /\ Spec.monthOf d = month)
    /\ (forall r, In r rows ->
          (Bucket.total_income r
           == Spec.total "income" (Bucket._id r)
                (filter (ownedBy (Jwt.user_id user)) (expenses s)))%Q
          /\ (Bucket.total_expense r
              == Spec.total "expense" (Bucket._id r)
                   (filter (ownedBy (Jwt.user_id user)) (expenses s)))%Q)
    /\ (forall r type, In r rows ->
          (forall d, In d (expenses s) ->
                     Expense.user_id d = Jwt.user_id user ->
                     Spec.monthOf d = Bucket._id r -> Expense.type d <> type) ->
          Spec.total type (Bucket._id r)
            (filter (ownedBy (Jwt.user_id user)) (expenses s)) = 0%Q)
    /\ ((forall d, In d (expenses s) ->
                   Expense.user_id d <> Jwt.user_id user) ->
        rows = []).
Proof.
  intros Hready He Ha.
  exists (summarize e (Jwt.user_id user) (expenses s)).
  pose proof (grouped_permutation _ _ _
                (group_permutes e He _)
                (grouped_group
                   (filter (ownedBy (Jwt.user_id user)) (expenses s))))
    as [Hnd Hmonths Htotals].
  fold (summarize e (Jwt.user_id user) (expenses s)) in Hnd, Hmonths, Htotals.
  split; [|split; [exact Hnd|split; [|split; [exact Htotals|split]]]].
  - rewrite handle_ready by exact Hready.
    now rewrite (authenticateToken_authenticated P e auth user).
  - intros month. rewrite Hmonths. split.
    + intros (d & Hd & E).
      apply filter_In in Hd as [Hd Ho]. apply ownedBy_true in Ho. eauto.
    + intros (d & Hd & Ho & E). exists d. split; [|exact E].
      apply filter_In. split; [exact Hd|now apply ownedBy_true].
  - intros r type _ H. apply total_no_entry. intros d Hd.
    apply filter_In in Hd as [Hd Ho]. apply ownedBy_true in Ho. now apply H.
  - intros H. unfold summarize.
    replace (filter (ownedBy (Jwt.user_id user)) (expenses s))
      with (@nil Expense.doc).
    + apply Permutation_nil. symmetry. apply (group_permutes e He).
    + symmetry. apply filter_nothing. intros d Hd.
      destruct (ownedBy (Jwt.user_id user) d) eqn:O; [|reflexivity].
      apply ownedBy_true in O. exfalso. exact (H d Hd O).
Qed.

Lemma summary_totals_witness :
  exists rows,
    handle Sample.process (Sample.at_time 7000)
      (GET_summary (Bearer Scenario.aliceToken)) Scenario.withLunch
    = send 200 (Summary rows) Scenario.withLunch
    /\ NoDup (map Bucket._id rows)
    /\ (forall month,
          In month (map Bucket._id rows) <->
          exists d, In d (expenses Scenario.withLunch)
                    /\ Expense.user_id d = 0%N
                    /\ Spec.monthOf d = month)
    /\ (forall r, In r rows ->
          (Bucket.total_income r
           == Spec.total "income" (Bucket._id r)
                (filter (ownedBy 0%N) (expenses Scenario.withLunch)))%Q
          /\ (Bucket.total_expense r
              == Spec.total "expense" (Bucket._id r)
                   (filter (ownedBy 0%N) (expenses Scenario.withLunch)))%Q)
    /\ (forall r type, In r rows ->
          (forall d, In d (expenses Scenario.withLunch) ->
                     Expense.user_id d = 0%N ->
                     Spec.monthOf d = Bucket._id r -> Expense.type d <> type) ->
          Spec.total type (Bucket._id r)
            (filter (ownedBy 0%N) (expenses Scenario.withLunch)) = 0%Q)
    /\ ((forall d, In d (expenses Scenario.withLunch) ->
                   Expense.user_id d <> 0%N) ->
        rows = []).
Proof.
  apply (summary_totals Sample.process (Sample.at_time 7000)
           Scenario.withLunch (Bearer Scenario.aliceToken)
           (Jwt.payload Scenario.aliceToken)).
  - reflexivity.
  - apply sample_engine_ok.
  - reflexivity.
Defined.

(** The scenario of the specification: after [alice] has recorded a lunch
    of 12.5 on 2025-01-05, the summary is one row, for 2025-01, with no
    income and 12.5 of expense. *)
Example summary_of_the_scenario :
  handle Sample.process (Sample.at_time 7000)
    (GET_summary (Bearer Scenario.aliceToken)) Scenario.withLunch
  = send 200
      (Summary [{| Bucket._id := "2025-01";
                   Bucket.total_income := 0 + 0;
                   Bucket.total_expense := 0 + (25 # 2) |}])
      Scenario.withLunch.
Proof. reflexivity. Qed.

(** ** The list of an owner's entries *)

(** What [GET /expenses] answers: all the entries of the authenticated
    owner, each once, a later one never with a greater [date] text; the empty
    sequence for an owner without entries.  The order of two entries of one
    date follows the scan of the engine. *)
Lemma list_sorted_by_date P e s auth user :
  isDbReady s = true -> engine_ok e ->
  authenticated P e auth = Some user ->
  exists l,
    handle P e (GET_expenses auth) s = send 200 (Expenses l) s
    /\ Permutation l (filter (ownedBy (Jwt.user_id user)) (expenses s))
    /\ StronglySorted
         (fun a b => String.leb (Expense.date b) (Expense.date a) = true) l
    /\ ((forall d, In d (expenses s) ->
                   Expense.user_id d <> Jwt.user_id user) ->
        l = []).
Proof.
  intros Hready He Ha.
  eexists. split; [|split; [|split]].
  - rewrite handle_ready by exact Hready.
    now rewrite (authenticateToken_authenticated P e auth user).
  - rewrite sort_permutation. apply (scan_permutes e He).
  - apply (sort_sorted (dateOrder (-1))).
    + intros a b. apply date_geb_total.
    + intros a b c. apply date_geb_trans.
  - intros H. rewrite filter_nothing.
    + apply Permutation_nil. symmetry.
      rewrite sort_permutation. apply (scan_permutes e He).
    + intros d Hd.
      destruct (ownedBy (Jwt.user_id user) d) eqn:O; [|reflexivity].
      apply ownedBy_true in O. exfalso. exact (H d Hd O).
Qed.

Lemma sort_two_dates (d1 d2 : Expense.doc) (l : list Expense.doc) :
  Expense.date d1 = "2025-12-31" -> Expense.date d2 = "20250101" ->
  Permutation l [d1; d2] ->
  Collection.sort (dateOrder (-1)) l = [d2; d1].
Proof.
  intros H1 H2 Hp.
  assert (B21 : dateOrder (-1) d2 d1 = true)
    by (unfold dateOrder; simpl; now rewrite H1, H2).
  assert (B12 : dateOrder (-1) d1 d2 = false)
    by (unfold dateOrder; simpl; now rewrite H1, H2).
  apply Permutation_sym, Permutation_length_2_inv in Hp.
  destruct Hp as [-> | ->]; simpl.
  - now rewrite B12.
  - now rewrite B21.
Qed.

(** An owner has two entries, one dated ["2025-12-31"] and one dated
    ["20250101"].  Whatever the order in which the engine scans them,
    [GET /expenses] answers with the entry of 1 January 2025 in front of the
    entry of 31 December 2025: the sort is on the texts, and ["0"] comes
    after ["-"]. *)
Lemma list_of_two_dates P e s auth user d1 d2 :
  isDbReady s = true -> engine_ok e ->
  authenticated P e auth = Some user ->
  filter (ownedBy (Jwt.user_id user)) (expenses s) = [d1; d2] ->
  Expense.date d1 = "2025-12-31" -> Expense.date d2 = "20250101" ->
  handle P e (GET_expenses auth) s = send 200 (Expenses [d2; d1]) s
  /\ Spec.dayNumber (Expense.date d2) = Some 20250101%Z
  /\ Spec.dayNumber (Expense.date d1) = Some 20251231%Z.
Proof.
  intros Hready He Ha Hf H1 H2.
  rewrite handle_ready by exact Hready.
  rewrite (authenticateToken_authenticated P e auth user) by exact Ha.
  unfold getExpenses.
  rewrite (sort_two_dates d1 d2); try assumption.
  - rewrite H1, H2. repeat split.
  - rewrite <- Hf. apply (scan_permutes e He).
Qed.

Example list_of_withDates :
  handle Sample.process (Sample.at_time 9000)
    (GET_expenses (Bearer Scenario.aliceToken)) Scenario.withDates
  = send 200 (Expenses [Scenario.januaryDoc; Scenario.decemberDoc])
      Scenario.withDates
  /\ Spec.dayNumber (Expense.date Scenario.januaryDoc) = Some 20250101%Z
  /\ Spec.dayNumber (Expense.date Scenario.decemberDoc) = Some 20251231%Z.
Proof.
  apply (list_of_two_dates Sample.process
           (Sample.at_time 9000) Scenario.withDates
           (Bearer Scenario.aliceToken) (Jwt.payload Scenario.aliceToken)
           Scenario.decemberDoc Scenario.januaryDoc).
  - reflexivity.
  - apply sample_engine_ok.
  - reflexivity.
  - reflexivity.
  - reflexivity.
  - reflexivity.
Qed.

(** The two entries are stored by [POST /expense], in a state the process
    reaches. *)
Example withDates_reachable :
  reachable Sample.process Scenario.withDates
  /\ handle Sample.process (Sample.at_time 7000)
       (POST_expense (Bearer Scenario.aliceToken) Scenario.december)
       Scenario.twoUsers
     = send 200 (Inserted 2%N)
         (snd (handle Sample.process (Sample.at_time 7000)
                 (POST_expense (Bearer Scenario.aliceToken)
                    Scenario.december) Scenario.twoUsers))
  /\ expenses Scenario.withDates
     = [Scenario.decemberDoc; Scenario.januaryDoc].
Proof.
  split; [|split; reflexivity].
  exact (reachable_handle Sample.process _ _
           (reachable_handle Sample.process _ _
              (reachable_handle Sample.process _ _ registered_reachable))).
Qed.

(** ** Creation of an entry *)

Lemma validateEntry_nil P b :
  validateEntry P b = [] <->
  validator.isIn (Entry.type b) ["expense"; "income"] = true
  /\ amountIsFloat_gt0 (Entry.amount b) = true
  /\ isISO8601 P (Entry.date b) = true
  /\ Entry.description b <> "".
Proof.
  unfold validateEntry. split.
  - intros H.
    apply app_eq_nil in H as [H1 H]. apply app_eq_nil in H as [H2 H].
    apply app_eq_nil in H as [H3 H4].
    apply check_nil in H1, H2, H3, H4.
    repeat split; auto.
    intros E. rewrite E in H4. discriminate.
  - intros (H1 & H2 & H3 & H4).
    now rewrite H1, H2, H3, (isEmpty_false _ H4).
Qed.

(** What [POST /expense] does, once the request is authenticated: 400 with
    the messages of the chains that fail, exactly when one fails; otherwise
    the entry is appended to the collection under the identity of the
    token, with the fields as they were sent, and its [_id] is answered. *)
Lemma addExpense_spec P e s auth user b :
  isDbReady s = true -> authenticated P e auth = Some user ->
  (validateEntry P b <> [] ->
   handle P e (POST_expense auth b) s
   = send 400 (Errors (validateEntry P b)) s)
  /\ (validateEntry P b = [] ->
      handle P e (POST_expense auth b) s
      = send 200 (Inserted (next_id s))
          {| isDbReady := isDbReady s; users := users s;
             expenses :=
               expenses s ++
               [{| Expense._id := next_id s;
                   Expense.user_id := Jwt.user_id user;
                   Expense.type := Entry.type b;
                   Expense.amount := Entry.amount b;
                   Expense.description := Entry.description b;
                   Expense.date := Entry.date b |}];
             next_id := N.succ (next_id s) |}).
Proof.
  intros Hready Ha. rewrite handle_ready by exact Hready.
  rewrite (authenticateToken_authenticated P e auth user) by exact Ha.
  unfold addExpense. split; intros V.
  - destruct (validateEntry P b); [contradiction|reflexivity].
  - now rewrite V.
Qed.

(** C5 at the input on which the code departs from it: the amount is the
    text ["12.5"], not a number, and [POST /expense] answers with an [_id]
    and stores the text. *)
Theorem create_accepts_numeric_text P e s auth user type description date :
  isDbReady s = true -> authenticated P e auth = Some user ->
  type = "expense" \/ type = "income" ->
  isISO8601 P date = true -> description <> "" ->
  handle P e
    (POST_expense auth
       {| Entry.type := type; Entry.amount := JStr "12.5";
          Entry.description := description; Entry.date := date |}) s
  = send 200 (Inserted (next_id s))
      {| isDbReady := isDbReady s; users := users s;
         expenses :=
           expenses s ++
           [{| Expense._id := next_id s;
               Expense.user_id := Jwt.user_id user;
               Expense.type := type;
               Expense.amount := JStr "12.5";
               Expense.description := description;
               Expense.date := date |}];
         next_id := N.succ (next_id s) |}.
Proof.
  intros Hready Ha Ht Hd Hn.
  apply (proj2 (addExpense_spec P e s auth user
                  {| Entry.type := type; Entry.amount := JStr "12.5";
                     Entry.description := description; Entry.date := date |}
                  Hready Ha)).
  apply validateEntry_nil. simpl. repeat split; auto.
  destruct Ht as [-> | ->]; reflexivity.
Qed.

Lemma create_accepts_numeric_text_witness :
  handle Sample.process (Sample.at_time 7000)
    (POST_expense (Bearer Scenario.aliceToken) Scenario.salary)
    Scenario.withLunch
  = send 200 (Inserted 3%N)
      {| isDbReady := true; users := users Scenario.withLunch;
         expenses :=
           [Scenario.lunchDoc;
            {| Expense._id := 3%N; Expense.user_id := 0%N;
               Expense.type := "income"; Expense.amount := JStr "12.5";
               Expense.description := "salary";
               Expense.date := "2025-01-05" |}];
         next_id := 4%N |}.
Proof.
  apply (create_accepts_numeric_text Sample.process (Sample.at_time 7000)
           Scenario.withLunch (Bearer Scenario.aliceToken)
           (Jwt.payload Scenario.aliceToken) "income" "salary" "2025-01-05").
  - reflexivity.
  - reflexivity.
  - right. reflexivity.
  - reflexivity.
  - discriminate.
Defined.

Lemma groupOrder_singleton e r :
  engine_ok e -> groupOrder e [r] = [r].
Proof.
  intros He. apply Permutation_length_1_inv.
  symmetry. apply (group_permutes e He).
Qed.

(** The summary of an owner whose only entry is [d]. *)
Lemma summary_of_one_entry P e s auth user d :
  isDbReady s = true -> engine_ok e ->
  authenticated P e auth = Some user ->
  filter (ownedBy (Jwt.user_id user)) (expenses s) = [d] ->
  handle P e (GET_summary auth) s
  = send 200 (Summary [addTo (newRow (period d)) d]) s.
Proof.
  intros Hready He Ha Hf. rewrite handle_ready by exact Hready.
  rewrite (authenticateToken_authenticated P e auth user) by exact Ha.
  unfold getSummary, summarize. rewrite Hf.
  change (group [d]) with [addTo (newRow (period d)) d].
  now rewrite groupOrder_singleton.
Qed.

Lemma filter_snoc_first_owned owner docs d :
  (forall x, In x docs -> Expense.user_id x <> owner) ->
  Expense.user_id d = owner ->
  filter (ownedBy owner) (docs ++ [d]) = [d].
Proof.
  intros Hn Hd. rewrite filter_app, filter_nothing.
  - simpl. now rewrite (proj2 (ownedBy_true owner d) Hd).
  - intros x Hx. destruct (ownedBy owner x) eqn:O; [|reflexivity].
    apply ownedBy_true in O. exfalso. exact (Hn x Hx O).
Qed.

(** C6 at an input on which the code departs from it: an owner without
    entries records one dated ["2025-12-31"] and then one dated
    ["20250101"], both of them dates [isISO8601] accepts although the message
    of the chain names the form yyyy-mm-dd.  Both are stored, and whatever
    the order in which the engine scans them, [GET /expenses] then answers
    with the entry of 1 January 2025 in front of the entry of 31 December
    2025: the list is not by date descending. *)
Theorem list_puts_january_before_december P e1 e2 e3 s auth user :
  isDbReady s = true -> engine_ok e3 ->
  authenticated P e1 auth = Some user ->
  authenticated P e2 auth = Some user ->
  authenticated P e3 auth = Some user ->
  isISO8601 P "2025-12-31" = true -> isISO8601 P "20250101" = true ->
  (forall d, In d (expenses s) -> Expense.user_id d <> Jwt.user_id user) ->
  exists s1 s2 d1 d2,
    handle P e1 (POST_expense auth Scenario.december) s
    = send 200 (Inserted (Expense._id d1)) s1
    /\ handle P e2 (POST_expense auth Scenario.january) s1
       = send 200 (Inserted (Expense._id d2)) s2
    /\ fieldsOf d1 = Scenario.december /\ fieldsOf d2 = Scenario.january
    /\ filter (ownedBy (Jwt.user_id user)) (expenses s2) = [d1; d2]
    /\ handle P e3 (GET_expenses auth) s2 = send 200 (Expenses [d2; d1]) s2
    /\ Spec.dayNumber (Expense.date d2) = Some 20250101%Z
    /\ Spec.dayNumber (Expense.date d1) = Some 20251231%Z.
Proof.
  intros Hready He Ha1 Ha2 Ha3 Hd1 Hd2 Hnone.
  assert (V1 : validateEntry P Scenario.december = []).
  { apply validateEntry_nil. simpl. repeat split; auto. discriminate. }
  assert (V2 : validateEntry P Scenario.january = []).
  { apply validateEntry_nil. simpl. repeat split; auto. discriminate. }
  set (d1 := {| Expense._id := next_id s;
                Expense.user_id := Jwt.user_id user;
                Expense.type := "expense"; Expense.amount := JNum 40;
                Expense.description := "gifts";
                Expense.date := "2025-12-31" |}).
  set (d2 := {| Expense._id := N.succ (next_id s);
                Expense.user_id := Jwt.user_id user;
                Expense.type := "expense"; Expense.amount := JNum 10;
                Expense.description := "bus";
                Expense.date := "20250101" |}).
  set (s1 := {| isDbReady := isDbReady s; users := users s;
                expenses := expenses s ++ [d1];
                next_id := N.succ (next_id s) |}).
  set (s2 := {| isDbReady := isDbReady s1; users := users s1;
                expenses := expenses s1 ++ [d2];
                next_id := N.succ (next_id s1) |}).
  assert (Hf : filter (ownedBy (Jwt.user_id user)) (expenses s2) = [d1; d2]).
  { simpl. rewrite filter_app.
    rewrite (filter_snoc_first_owned _ _ d1 Hnone eq_refl).
    cbn [filter app].
    now rewrite (proj2 (ownedBy_true (Jwt.user_id user) d2) eq_refl). }
  exists s1, s2, d1, d2.
  split; [exact (proj2 (addExpense_spec P e1 s auth user _ Hready Ha1) V1)|].
  split; [exact (proj2 (addExpense_spec P e2 s1 auth user _ Hready Ha2) V2)|].
  split; [reflexivity|]. split; [reflexivity|]. split; [exact Hf|].
  now apply (list_of_two_dates P e3 s2 auth user d1 d2).
Qed.

Lemma list_puts_january_before_december_witness :
  exists s1 s2 d1 d2,
    handle Sample.process (Sample.at_time 7000)
      (POST_expense (Bearer Scenario.aliceToken) Scenario.december)
      Scenario.twoUsers
    = send 200 (Inserted (Expense._id d1)) s1
    /\ handle Sample.process (Sample.at_time 8000)
         (POST_expense (Bearer Scenario.aliceToken) Scenario.january) s1
       = send 200 (Inserted (Expense._id d2)) s2
    /\ fieldsOf d1 = Scenario.december /\ fieldsOf d2 = Scenario.january
    /\ filter (ownedBy (Jwt.user_id (Jwt.payload Scenario.aliceToken)))
         (expenses s2) = [d1; d2]
    /\ handle Sample.process (Sample.at_time 9000)
         (GET_expenses (Bearer Scenario.aliceToken)) s2
       = send 200 (Expenses [d2; d1]) s2
    /\ Spec.dayNumber (Expense.date d2) = Some 20250101%Z
    /\ Spec.dayNumber (Expense.date d1) = Some 20251231%Z.
Proof.
  apply (list_puts_january_before_december Sample.process
           (Sample.at_time 7000) (Sample.at_time 8000) (Sample.at_time 9000)
           Scenario.twoUsers (Bearer Scenario.aliceToken)
           (Jwt.payload Scenario.aliceToken)).
  - reflexivity.
  - apply sample_engine_ok.
  - reflexivity.
  - reflexivity.
  - reflexivity.
  - reflexivity.
  - reflexivity.
  - intros d [].
Defined.

(** Where every amount is a number, the sum of the amounts that are numbers
    is the sum of the amounts. *)
Lemma total_of_numbers type month docs :
  (forall d, In d docs -> exists q, Expense.amount d = JNum q) ->
  Spec.total type month docs = Spec.sumOfAmounts type month docs.
Proof.
  intros H. unfold Spec.total, Spec.sumOfAmounts.
  induction docs as [|d docs IH]; simpl; [reflexivity|].
  assert (IH' : Spec.sum
                  (Spec.numbers
                     (map Expense.amount
                        (filter (Spec.inBucket month type) docs)))
                = Spec.sum
                    (map (fun d => Spec.valueOf (Expense.amount d))
                       (filter (Spec.inBucket month type) docs)))
    by (apply IH; intros x Hx; apply H; now right).
  destruct (Spec.inBucket month type d); [|exact IH'].
  destruct (H d (or_introl eq_refl)) as [q Hq]. simpl.
  rewrite Hq. simpl. now rewrite IH'.
Qed.

(** The one entry of an owner is an income whose amount is the text
    ["12.5"].  The sum of [amount] over the income entries of its month is
    12.5; [GET /summary] reports for that month a [total_income] of 0. *)
Lemma summary_of_text_amount P e s auth user d :
  isDbReady s = true -> engine_ok e ->
  authenticated P e auth = Some user ->
  filter (ownedBy (Jwt.user_id user)) (expenses s) = [d] ->
  Expense.type d = "income" -> Expense.amount d = JStr "12.5" ->
  handle P e (GET_summary auth) s
  = send 200
      (Summary [{| Bucket._id := Spec.monthOf d;
                   Bucket.total_income := 0;
                   Bucket.total_expense := 0 |}]) s
  /\ (Spec.sumOfAmounts "income" (Spec.monthOf d)
        (filter (ownedBy (Jwt.user_id user)) (expenses s)) == 25 # 2)%Q
  /\ ~ (0 == 25 # 2)%Q.
Proof.
  intros Hready He Ha Hf Ht Hamount. split; [|split].
  - rewrite (summary_of_one_entry P e s auth user d Hready He Ha Hf).
    unfold addTo, cond_amount. rewrite Ht, Hamount. reflexivity.
  - rewrite Hf. unfold Spec.sumOfAmounts, Spec.inBucket. simpl.
    rewrite String.eqb_refl, Ht. simpl. rewrite Hamount. reflexivity.
  - discriminate.
Qed.

Example summary_of_withSalary :
  handle Sample.process (Sample.at_time 8000)
    (GET_summary (Bearer Scenario.bobToken)) Scenario.withSalary
  = send 200
      (Summary [{| Bucket._id := "2025-01";
                   Bucket.total_income := 0;
                   Bucket.total_expense := 0 |}]) Scenario.withSalary
  /\ (Spec.sumOfAmounts "income" "2025-01"
        (filter (ownedBy 1%N) (expenses Scenario.withSalary)) == 25 # 2)%Q
  /\ ~ (0 == 25 # 2)%Q.
Proof.
  apply (summary_of_text_amount Sample.process (Sample.at_time 8000)
           Scenario.withSalary (Bearer Scenario.bobToken)
           (Jwt.payload Scenario.bobToken) Scenario.salaryDoc).
  - reflexivity.
  - apply sample_engine_ok.
  - reflexivity.
  - reflexivity.
  - reflexivity.
  - reflexivity.
Qed.

(** C2 at an input on which the code departs from it: an owner without
    entries records an income of 2025-01-05 whose amount is the text
    ["12.5"], which the chain of [amount] accepts although its message asks
    for a number.  The entry is stored as the owner's one entry, the sum of
    [amount] over the owner's income entries of 2025-01 is 12.5, and
    [GET /summary] reports for 2025-01 a [total_income] of 0. *)
Theorem summary_leaves_out_text_amount P e e' s auth user :
  isDbReady s = true -> engine_ok e' ->
  authenticated P e auth = Some user ->
  authenticated P e' auth = Some user ->
  isISO8601 P "2025-01-05" = true ->
  (forall d, In d (expenses s) -> Expense.user_id d <> Jwt.user_id user) ->
  exists s' d,
    handle P e (POST_expense auth Scenario.salary) s
    = send 200 (Inserted (Expense._id d)) s'
    /\ fieldsOf d = Scenario.salary
    /\ filter (ownedBy (Jwt.user_id user)) (expenses s') = [d]
    /\ handle P e' (GET_summary auth) s'
       = send 200
           (Summary [{| Bucket._id := "2025-01";
                        Bucket.total_income := 0;
                        Bucket.total_expense := 0 |}]) s'
    /\ (Spec.sumOfAmounts "income" "2025-01"
          (filter (ownedBy (Jwt.user_id user)) (expenses s')) == 25 # 2)%Q
    /\ ~ (0 == 25 # 2)%Q.
Proof.
  intros Hready He' Ha Ha' Hd Hnone.
  assert (V : validateEntry P Scenario.salary = []).
  { apply validateEntry_nil. simpl. repeat split; auto. discriminate. }
  set (d := {| Expense._id := next_id s;
               Expense.user_id := Jwt.user_id user;
               Expense.type := "income"; Expense.amount := JStr "12.5";
               Expense.description := "salary";
               Expense.date := "2025-01-05" |}).
  set (s' := {| isDbReady := isDbReady s; users := users s;
                expenses := expenses s ++ [d];
                next_id := N.succ (next_id s) |}).
  assert (Hf : filter (ownedBy (Jwt.user_id user)) (expenses s') = [d])
    by (now apply filter_snoc_first_owned).
  exists s', d.
  split; [exact (proj2 (addExpense_spec P e s auth user _ Hready Ha) V)|].
  split; [reflexivity|]. split; [exact Hf|].
  exact (summary_of_text_amount P e' s' auth user d Hready He' Ha' Hf
           eq_refl eq_refl).
Qed.

Lemma summary_leaves_out_text_amount_witness :
  exists s' d,
    handle Sample.process (Sample.at_time 7000)
      (POST_expense (Bearer Scenario.bobToken) Scenario.salary)
      Scenario.twoUsers
    = send 200 (Inserted (Expense._id d)) s'
    /\ fieldsOf d = Scenario.salary
    /\ filter (ownedBy (Jwt.user_id (Jwt.payload Scenario.bobToken)))
         (expenses s') = [d]
    /\ handle Sample.process (Sample.at_time 8000)
         (GET_summary (Bearer Scenario.bobToken)) s'
       = send 200
           (Summary [{| Bucket._id := "2025-01";
                        Bucket.total_income := 0;
                        Bucket.total_expense := 0 |}]) s'
    /\ (Spec.sumOfAmounts "income" "2025-01"
          (filter (ownedBy (Jwt.user_id (Jwt.payload Scenario.bobToken)))
             (expenses s')) == 25 # 2)%Q
    /\ ~ (0 == 25 # 2)%Q.
Proof.
  apply (summary_leaves_out_text_amount Sample.process
           (Sample.at_time 7000) (Sample.at_time 8000) Scenario.twoUsers
           (Bearer Scenario.bobToken) (Jwt.payload Scenario.bobToken)).
  - reflexivity.
  - apply sample_engine_ok.
  - reflexivity.
  - reflexivity.
  - reflexivity.
  - intros d [].
Defined.

(** The entry is stored by [POST /expense], in a state the process
    reaches. *)
Example withSalary_reachable :
  reachable Sample.process Scenario.withSalary
  /\ handle Sample.process (Sample.at_time 7000)
       (POST_expense (Bearer Scenario.bobToken) Scenario.salary)
       Scenario.twoUsers
     = send 200 (Inserted 2%N) Scenario.withSalary
  /\ expenses Scenario.withSalary = [Scenario.salaryDoc].
Proof.
  split; [|split; reflexivity].
  exact (reachable_handle Sample.process _ _
           (reachable_handle Sample.process _ _ registered_reachable)).
Qed.

(** C9: there is a body whose [amount] is the text ["12.5"] which passes
    the validation of [POST /expense]; the entry is stored with that text
    as its amount; and the summary of its owner, who had no entry before,
    then reports an income of 0 for the month of this income entry.  Sent
    as the number 12.5, the same amount is reported. *)
Theorem numeric_text_amount_is_stored_and_not_summed P e e' s auth user :
  isDbReady s = true -> engine_ok e' ->
  authenticated P e auth = Some user ->
  authenticated P e' auth = Some user ->
  isISO8601 P "2025-01-05" = true ->
  (forall d, In d (expenses s) -> Expense.user_id d <> Jwt.user_id user) ->
  exists b s',
    Entry.type b = "income" /\ Entry.amount b = JStr "12.5"
    /\ validateEntry P b = []
    /\ handle P e (POST_expense auth b) s
       = send 200 (Inserted (next_id s)) s'
    /\ expenses s'
       = expenses s ++
         [{| Expense._id := next_id s;
             Expense.user_id := Jwt.user_id user;
             Expense.type := "income";
             Expense.amount := JStr "12.5";
             Expense.description := Entry.description b;
             Expense.date := Entry.date b |}]
    /\ handle P e' (GET_summary auth) s'
       = send 200
           (Summary [{| Bucket._id := "2025-01";
                        Bucket.total_income := 0;
                        Bucket.total_expense := 0 |}]) s'
    /\ exists s'',
         handle P e
           (POST_expense auth
              {| Entry.type := "income"; Entry.amount := JNum (25 # 2);
                 Entry.description := Entry.description b;
                 Entry.date := Entry.date b |}) s
         = send 200 (Inserted (next_id s)) s''
         /\ handle P e' (GET_summary auth) s''
            = send 200
                (Summary [{| Bucket._id := "2025-01";
                             Bucket.total_income := 25 # 2;
                             Bucket.total_expense := 0 |}]) s''.
Proof.
  intros Hready He' Ha Ha' Hd Hnone.
  set (b := {| Entry.type := "income"; Entry.amount := JStr "12.5";
               Entry.description := "salary";
               Entry.date := "2025-01-05" |}).
  set (b' := {| Entry.type := "income"; Entry.amount := JNum (25 # 2);
                Entry.description := "salary";
                Entry.date := "2025-01-05" |}).
  assert (V : validateEntry P b = []).
  { apply validateEntry_nil. simpl. repeat split; auto. discriminate. }
  assert (V' : validateEntry P b' = []).
  { apply validateEntry_nil. simpl. repeat split; auto. discriminate. }
  exists b. eexists. split; [reflexivity|]. split; [reflexivity|].
  split; [exact V|].
  split; [exact (proj2 (addExpense_spec P e s auth user b Hready Ha) V)|].
  split; [reflexivity|]. split.
  - rewrite (summary_of_one_entry P e' _ auth user
               {| Expense._id := next_id s;
                  Expense.user_id := Jwt.user_id user;
                  Expense.type := "income";
                  Expense.amount := JStr "12.5";
                  Expense.description := "salary";
                  Expense.date := "2025-01-05" |});
      [reflexivity|exact Hready|exact He'|exact Ha'|].
    now apply filter_snoc_first_owned.
  - eexists. split.
    + exact (proj2 (addExpense_spec P e s auth user b' Hready Ha) V').
    + rewrite (summary_of_one_entry P e' _ auth user
                 {| Expense._id := next_id s;
                    Expense.user_id := Jwt.user_id user;
                    Expense.type := "income";
                    Expense.amount := JNum (25 # 2);
                    Expense.description := "salary";
                    Expense.date := "2025-01-05" |});
        [reflexivity|exact Hready|exact He'|exact Ha'|].
      now apply filter_snoc_first_owned.
Qed.

Lemma numeric_text_amount_witness :
  exists b s',
    Entry.type b = "income" /\ Entry.amount b = JStr "12.5"
    /\ validateEntry Sample.process b = []
    /\ handle Sample.process (Sample.at_time 7000)
         (POST_expense (Bearer Scenario.bobToken) b) Scenario.withLunch
       = send 200 (Inserted 3%N) s'
    /\ expenses s'
       = expenses Scenario.withLunch ++
         [{| Expense._id := 3%N; Expense.user_id := 1%N;
             Expense.type := "income"; Expense.amount := JStr "12.5";
             Expense.description := Entry.description b;
             Expense.date := Entry.date b |}]
    /\ handle Sample.process (Sample.at_time 8000)
         (GET_summary (Bearer Scenario.bobToken)) s'
       = send 200
           (Summary [{| Bucket._id := "2025-01";
                        Bucket.total_income := 0;
                        Bucket.total_expense := 0 |}]) s'
    /\ exists s'',
         handle Sample.process (Sample.at_time 7000)
           (POST_expense (Bearer Scenario.bobToken)
              {| Entry.type := "income"; Entry.amount := JNum (25 # 2);
                 Entry.description := Entry.description b;
                 Entry.date := Entry.date b |}) Scenario.withLunch
         = send 200 (Inserted 3%N) s''
         /\ handle Sample.process (Sample.at_time 8000)
              (GET_summary (Bearer Scenario.bobToken)) s''
            = send 200
                (Summary [{| Bucket._id := "2025-01";
                             Bucket.total_income := 25 # 2;
                             Bucket.total_expense := 0 |}]) s''.
Proof.
  apply (numeric_text_amount_is_stored_and_not_summed Sample.process
           (Sample.at_time 7000) (Sample.at_time 8000) Scenario.withLunch
           (Bearer Scenario.bobToken) (Jwt.payload Scenario.bobToken)).
  - reflexivity.
  - apply sample_engine_ok.
  - reflexivity.
  - reflexivity.
  - reflexivity.
  - intros d [<-|[]]. discriminate.
Defined.

(** ** The scenario of the specification, run on the sample platform *)

Example scenario_register :
  fst (handle Sample.process (Sample.at_time 1000)
         (POST_register Scenario.alice) (startServer initial))
  = {| status := 200; body := Registered 0%N "alice" |}.
Proof. reflexivity. Qed.

Example scenario_register_twice :
  fst (handle Sample.process (Sample.at_time 1500)
         (POST_register Scenario.alice) Scenario.registered)
  = {| status := 400; body := Error "Username already exists" |}.
Proof. reflexivity. Qed.

Example scenario_register_short :
  fst (handle Sample.process (Sample.at_time 1500)
         (POST_register (credentials "" "abc")) Scenario.registered)
  = {| status := 400;
       body := Errors ["Username is required";
                       "Username must be at least 4 characters";
                       "Password must be at least 4 characters"] |}.
Proof. reflexivity. Qed.

Example scenario_login :
  fst (handle Sample.process (Sample.at_time 5000)
         (POST_login Scenario.alice) Scenario.twoUsers)
  = {| status := 200; body := Token Scenario.aliceToken |}.
Proof. reflexivity. Qed.

Example scenario_create :
  handle Sample.process (Sample.at_time 6000)
    (POST_expense (Bearer Scenario.aliceToken) Scenario.lunch)
    Scenario.twoUsers
  = send 200 (Inserted 2%N) Scenario.withLunch.
Proof. reflexivity. Qed.

Example scenario_create_invalid :
  fst (handle Sample.process (Sample.at_time 6000)
         (POST_expense (Bearer Scenario.aliceToken)
            {| Entry.type := "gift"; Entry.amount := JNum 0;
               Entry.description := ""; Entry.date := "yesterday" |})
         Scenario.twoUsers)
  = {| status := 400;
       body := Errors (validateEntry Sample.process
                         {| Entry.type := "gift"; Entry.amount := JNum 0;
                            Entry.description := "";
                            Entry.date := "yesterday" |}) |}
  /\ length (validateEntry Sample.process
               {| Entry.type := "gift"; Entry.amount := JNum 0;
                  Entry.description := ""; Entry.date := "yesterday" |})
     = 4%nat.
Proof. split; reflexivity. Qed.

Example scenario_no_token :
  fst (handle Sample.process (Sample.at_time 6000) (GET_expenses None)
         Scenario.withLunch)
  = {| status := 401; body := Error "No token provided" |}
  /\ fst (handle Sample.process (Sample.at_time 6000)
            (GET_expenses (Some [Opaque "Bearer"; Opaque "abc"]))
            Scenario.withLunch)
     = {| status := 403; body := Error "Invalid token" |}.
Proof. split; reflexivity. Qed.

Example scenario_list :
  fst (handle Sample.process (Sample.at_time 7000)
         (GET_expenses (Bearer Scenario.aliceToken)) Scenario.withLunch)
  = {| status := 200; body := Expenses [Scenario.lunchDoc] |}.
Proof. reflexivity. Qed.

Example scenario_delete :
  fst (handle Sample.process (Sample.at_time 7000)
         (DELETE_expense (Some 2%N) (Bearer Scenario.aliceToken))
         Scenario.withLunch)
  = {| status := 200; body := Deleted 1 |}
  /\ fst (handle Sample.process (Sample.at_time 8000)
            (GET_expenses (Bearer Scenario.aliceToken))
            (snd (handle Sample.process (Sample.at_time 7000)
                    (DELETE_expense (Some 2%N) (Bearer Scenario.aliceToken))
                    Scenario.withLunch)))
     = {| status := 200; body := Expenses [] |}.
Proof. split; reflexivity. Qed.

Example scenario_update :
  fst (handle Sample.process (Sample.at_time 7000)
         (PUT_expense (Some 2%N) (Bearer Scenario.aliceToken)
            Scenario.coffee) Scenario.withLunch)
  = {| status := 200; body := Updated 1 |}.
Proof. reflexivity. Qed.

(** ** From registration to login *)

Lemma findOne_app {A : Type} (filter : A -> bool) (c c' : list A) :
  Collection.findOne filter c = None ->
  Collection.findOne filter (c ++ c') = Collection.findOne filter c'.
Proof.
  unfold Collection.findOne.
  induction c as [|d c IH]; simpl; [reflexivity|].
  destruct (filter d); [discriminate|exact IH].
Qed.

(** Where [bcrypt.compare] accepts a password against the hash
    [bcrypt.hash] made of it, a user who has just registered under a name no
    user had logs in with the same body, and the token names the identifier
    the registration answered. *)
Lemma register_then_login P e e1 e2 s s' b id :
  (forall password salt,
     bcrypt_compare P password (bcrypt_hash P password 10 salt) = true) ->
  (forall u, In u (users s) -> User.username u <> Credentials.username b) ->
  handle P e (POST_register b) s
  = send 200 (Registered id (Credentials.username b)) s' ->
  (Date_now e2 / 1000 < Date_now e1 / 1000 + 3600)%Z ->
  exists t user,
    handle P e1 (POST_login b) s' = send 200 (Token t) s'
    /\ jwt_verify P t (JWT_SECRET P) (Date_now e2) = Some user
    /\ Jwt.user_id user = id
    /\ Jwt.username user = Credentials.username b.
Proof.
  intros Hb Hfresh Hreg Ht. unfold handle in Hreg.
  destruct (isDbReady s) eqn:Hready; simpl in Hreg; [|discriminate].
  unfold register in Hreg.
  destruct (check _ _ ++ check _ _ ++ check _ _) eqn:E; [|discriminate].
  apply app_eq_nil in E as [_ E]. apply app_eq_nil in E as [Hu Hp].
  apply check_nil in Hu, Hp.
  apply isLength_nonempty in Hu, Hp.
  destruct (Collection.findOne _ _); [discriminate|].
  assert (F : Collection.findOne
                (fun u => String.eqb (User.username u)
                            (Credentials.username b)) (users s) = None).
  { apply findOne_none. intros u Hin. apply String.eqb_neq.
    now apply Hfresh. }
  unfold send in Hreg. injection Hreg as Hid Hs'. subst id s'.
  do 2 eexists. rewrite handle_ready by exact Hready.
  unfold login. rewrite login_checks_pass by assumption.
  simpl users. unfold Collection.insertOne.
  rewrite (findOne_app _ _ _ F). unfold Collection.findOne. simpl.
  rewrite String.eqb_refl. cbn [User.password User._id]. rewrite Hb.
  split; [reflexivity|].
  split; [now apply jwt_verify_sign|]. split; reflexivity.
Qed.

Lemma sample_compare_hash password salt :
  Sample.compare password (Sample.hash password 10 salt) = true.
Proof.
  unfold Sample.compare, Sample.hash.
  induction password as [|c password IH]; simpl.
  - destruct (ascii_dec "$" "$"); [now destruct salt|contradiction].
  - destruct (ascii_dec c c); [exact IH|contradiction].
Qed.

Example register_then_login_on_sample :
  exists t user,
    handle Sample.process (Sample.at_time 5000) (POST_login Scenario.alice)
      Scenario.registered
    = send 200 (Token t) Scenario.registered
    /\ jwt_verify Sample.process t (JWT_SECRET Sample.process) 3604999
       = Some user
    /\ Jwt.user_id user = 0%N
    /\ Jwt.username user = "alice".
Proof.
  apply (register_then_login Sample.process (Sample.at_time 1000)
           (Sample.at_time 5000) (Sample.at_time 3604999)
           (startServer initial) Scenario.registered Scenario.alice 0%N).
  - intros password salt. apply sample_compare_hash.
  - intros u [].
  - reflexivity.
  - reflexivity.
Qed.

(** * Further properties of the handlers *)

(** ** Registration *)

Lemma register_checks_nil username password :
  check (negb (validator.isEmpty username)) "Username is required"
  ++ check (validator.isLength username 4)
       "Username must be at least 4 characters"
  ++ check (validator.isLength password 4)
       "Password must be at least 4 characters" = []
  <-> validator.isLength username 4 = true
      /\ validator.isLength password 4 = true.
Proof.
  split.
  - intros H. apply app_eq_nil in H as [_ H].
    apply app_eq_nil in H as [H1 H2]. now apply check_nil in H1, H2.
  - intros [H1 H2]. rewrite H1, H2.
    now rewrite (isEmpty_false _ (isLength_nonempty _ H1)).
Qed.

Lemma findOne_name_none (l : list User.doc) (name : string) :
  Collection.findOne (fun u => String.eqb (User.username u) name) l = None
  <-> forall u, In u l -> User.username u <> name.
Proof.
  rewrite findOne_none. split; intros H u Hu.
  - intros E. specialize (H u Hu). simpl in H.
    rewrite E, String.eqb_refl in H. discriminate.
  - apply String.eqb_neq. now apply H.
Qed.

Lemma In_firstn {A : Type} (n : nat) (l : list A) (x : A) :
  In x (firstn n l) -> In x l.
Proof.
  intros H. rewrite <- (firstn_skipn n l). apply in_or_app. now left.
Qed.

Lemma usersAtFindOne_alone e s :
  insertedSinceFindOne e = 0%nat -> usersAtFindOne e s = users s.
Proof.
  intros H. unfold usersAtFindOne. rewrite H, Nat.sub_0_r.
  apply firstn_all.
Qed.

(** A [findOne] that ran before the last user was inserted saw none of
    the users that were not there before. *)
Lemma usersAtFindOne_before e s before u :
  users s = before ++ [u] -> (1 <= insertedSinceFindOne e)%nat ->
  forall v, In v (usersAtFindOne e s) -> In v before.
Proof.
  intros E H v Hv. unfold usersAtFindOne in Hv. rewrite E in Hv.
  rewrite length_app in Hv. simpl in Hv.
  rewrite firstn_app in Hv. apply in_app_or in Hv as [Hv|Hv].
  - now apply In_firstn in Hv.
  - replace (length before + 1 - insertedSinceFindOne e - length before)%nat
      with 0%nat in Hv by lia.
    destruct Hv.
Qed.

(** The registration of well-formed credentials under a name its [findOne]
    does not find. *)
Lemma register_unseen P e s b :
  isDbReady s = true ->
  validator.isLength (Credentials.username b) 4 = true ->
  validator.isLength (Credentials.password b) 4 = true ->
  (forall u, In u (usersAtFindOne e s) ->
             User.username u <> Credentials.username b) ->
  handle P e (POST_register b) s
  = send 200 (Registered (next_id s) (Credentials.username b))
      {| isDbReady := true;
         users :=
           users s ++
           [{| User._id := next_id s;
               User.username := Credentials.username b;
               User.password :=
                 bcrypt_hash P (Credentials.password b) 10 (genSalt e) |}];
         expenses := expenses s;
         next_id := N.succ (next_id s) |}.
Proof.
  intros Hready Hu Hp Hfresh. rewrite handle_ready by exact Hready.
  unfold register.
  rewrite (proj2 (register_checks_nil _ _) (conj Hu Hp)).
  rewrite (proj2 (findOne_name_none _ _) Hfresh).
  unfold Collection.insertOne. now rewrite Hready.
Qed.

(** X1: with the connection established, a name of at least four
    characters that no user has and a password of at least four characters
    are answered 200 with the new identifier and the name; the user is
    appended with the hash [bcrypt.hash] makes of the password at cost 10,
    and nothing else changes. *)
Theorem register_new_user P e s b :
  isDbReady s = true ->
  validator.isLength (Credentials.username b) 4 = true ->
  validator.isLength (Credentials.password b) 4 = true ->
  (forall u, In u (users s) -> User.username u <> Credentials.username b) ->
  handle P e (POST_register b) s
  = send 200 (Registered (next_id s) (Credentials.username b))
      {| isDbReady := true;
         users :=
           users s ++
           [{| User._id := next_id s;
               User.username := Credentials.username b;
               User.password :=
                 bcrypt_hash P (Credentials.password b) 10 (genSalt e) |}];
         expenses := expenses s;
         next_id := N.succ (next_id s) |}.
Proof.
  intros Hready Hu Hp Hfresh.
  apply register_unseen; try assumption.
  intros u Hin. apply Hfresh. now apply In_firstn in Hin.
Qed.

Lemma register_new_user_witness :
  handle Sample.process (Sample.at_time 2000) (POST_register Scenario.bob)
    Scenario.registered
  = send 200 (Registered 1%N "bobby")
      {| isDbReady := true;
         users :=
           [Scenario.aliceDoc;
            {| User._id := 1%N; User.username := "bobby";
               User.password := "hunter22$salt" |}];
         expenses := [];
         next_id := 2%N |}.
Proof.
  apply (register_new_user Sample.process (Sample.at_time 2000)
           Scenario.registered Scenario.bob).
  - reflexivity.
  - reflexivity.
  - reflexivity.
  - intros u [<-|[]]. discriminate.
Defined.

(** The registration of well-formed credentials under a name its [findOne]
    finds. *)
Lemma register_seen P e s b :
  isDbReady s = true ->
  validator.isLength (Credentials.username b) 4 = true ->
  validator.isLength (Credentials.password b) 4 = true ->
  (exists u, In u (usersAtFindOne e s)
             /\ User.username u = Credentials.username b) ->
  handle P e (POST_register b) s
  = send 400 (Error "Username already exists") s.
Proof.
  intros Hready Hu Hp (u & Hin & Hn).
  rewrite handle_ready by exact Hready. unfold register.
  rewrite (proj2 (register_checks_nil _ _) (conj Hu Hp)).
  destruct (Collection.findOne _ _) eqn:F; [reflexivity|].
  exfalso. exact (proj1 (findOne_name_none _ _) F u Hin Hn).
Qed.

(** X2: with the connection established, [/register] answers 400 with the
    messages of the chains that fail when the name or the password has fewer
    than four characters, and 400 "Username already exists" when the
    credentials are well formed and its [findOne] finds a user with the name,
    which, when no other registration is under way, is when a user has the
    name; in each case nothing is stored. *)
Theorem register_rejected P e s b :
  isDbReady s = true ->
  (validator.isLength (Credentials.username b) 4 = false
   \/ validator.isLength (Credentials.password b) 4 = false ->
   exists errors,
     errors <> []
     /\ handle P e (POST_register b) s = send 400 (Errors errors) s)
  /\ (validator.isLength (Credentials.username b) 4 = true ->
      validator.isLength (Credentials.password b) 4 = true ->
      (exists u, In u (usersAtFindOne e s)
                 /\ User.username u = Credentials.username b) ->
      handle P e (POST_register b) s
      = send 400 (Error "Username already exists") s)
  /\ (validator.isLength (Credentials.username b) 4 = true ->
      validator.isLength (Credentials.password b) 4 = true ->
      insertedSinceFindOne e = 0%nat ->
      (exists u, In u (users s)
                 /\ User.username u = Credentials.username b) ->
      handle P e (POST_register b) s
      = send 400 (Error "Username already exists") s).
Proof.
  intros Hready. split; [|split].
  - intros Hshort. rewrite handle_ready by exact Hready. unfold register.
    destruct (check _ _ ++ check _ _ ++ check _ _) eqn:E.
    + apply register_checks_nil in E as [Hu Hp].
      destruct Hshort; congruence.
    + eexists. split; [|reflexivity]. discriminate.
  - intros Hu Hp Hex. now apply register_seen.
  - intros Hu Hp Halone Hex. apply register_seen; try assumption.
    now rewrite usersAtFindOne_alone.
Qed.

Lemma register_rejected_witness :
  (validator.isLength "alice" 4 = false
   \/ validator.isLength "pass1234" 4 = false ->
   exists errors,
     errors <> []
     /\ handle Sample.process (Sample.at_time 2000)
          (POST_register Scenario.alice) Scenario.registered
        = send 400 (Errors errors) Scenario.registered)
  /\ (validator.isLength "alice" 4 = true ->
      validator.isLength "pass1234" 4 = true ->
      (exists u, In u (usersAtFindOne (Sample.at_time 2000)
                         Scenario.registered)
                 /\ User.username u = "alice") ->
      handle Sample.process (Sample.at_time 2000)
        (POST_register Scenario.alice) Scenario.registered
      = send 400 (Error "Username already exists") Scenario.registered)
  /\ (validator.isLength "alice" 4 = true ->
      validator.isLength "pass1234" 4 = true ->
      insertedSinceFindOne (Sample.at_time 2000) = 0%nat ->
      (exists u, In u (users Scenario.registered)
                 /\ User.username u = "alice") ->
      handle Sample.process (Sample.at_time 2000)
        (POST_register Scenario.alice) Scenario.registered
      = send 400 (Error "Username already exists") Scenario.registered).
Proof.
  apply (register_rejected Sample.process (Sample.at_time 2000)
           Scenario.registered Scenario.alice).
  reflexivity.
Defined.

(** ** Login *)

(** X3: with the connection established, [/login] answers 400 exactly when
    the name or the password is empty, whatever the users are; "Username is
    required" is among the messages exactly when the name is empty and
    "Password is required" exactly when the password is. *)
Theorem login_rejects_empty P e s b :
  isDbReady s = true ->
  (status (fst (handle P e (POST_login b) s)) = 400%N
   <-> Credentials.username b = "" \/ Credentials.password b = "")
  /\ (Credentials.username b = "" \/ Credentials.password b = "" ->
      exists errors,
        handle P e (POST_login b) s = send 400 (Errors errors) s
        /\ (In "Username is required" errors
            <-> Credentials.username b = "")
        /\ (In "Password is required" errors
            <-> Credentials.password b = "")).
Proof.
  intros Hready. rewrite handle_ready by exact Hready. unfold login.
  destruct (Credentials.username b) as [|c u] eqn:Eu;
    destruct (Credentials.password b) as [|c' p] eqn:Ep; simpl.
  - split; [split; auto|]. intros _. eexists. split; [reflexivity|].
    simpl. split; split; auto.
  - split; [split; auto|]. intros _. eexists. split; [reflexivity|].
    simpl. split; split; auto; intros H; try discriminate.
    destruct H as [H|[]]. discriminate.
  - split; [split; auto|]. intros _. eexists. split; [reflexivity|].
    simpl. split; split; auto; intros H; try discriminate.
    destruct H as [H|[]]. discriminate.
  - split.
    + split; [|intros [H|H]; discriminate].
      destruct (Collection.findOne _ _); [|discriminate].
      destruct (bcrypt_compare _ _ _); discriminate.
    + intros [H|H]; discriminate.
Qed.

Lemma login_rejects_empty_witness :
  (status (fst (handle Sample.process (Sample.at_time 5000)
                  (POST_login (credentials "alice" ""))
                  Scenario.registered)) = 400%N
   <-> "alice" = "" \/ "" = "")
  /\ ("alice" = "" \/ "" = "" ->
      exists errors,
        handle Sample.process (Sample.at_time 5000)
          (POST_login (credentials "alice" "")) Scenario.registered
        = send 400 (Errors errors) Scenario.registered
        /\ (In "Username is required" errors <-> "alice" = "")
        /\ (In "Password is required" errors <-> "" = "")).
Proof.
  apply (login_rejects_empty Sample.process (Sample.at_time 5000)
           Scenario.registered (credentials "alice" "")).
  reflexivity.
Defined.

(** ** The routes behind [authenticateToken] *)

(** X4: with the connection established, a request to a route behind
    [authenticateToken] whose header does not authenticate is answered 401
    "No token provided" when the header is absent or has no second piece (or
    an empty one), and 403 "Invalid token" otherwise, whatever the [:id] and
    the body are; nothing is stored. *)
Theorem unauthenticated_request_refused P e s req auth :
  isDbReady s = true ->
  authorizationOf req = Some auth ->
  authenticated P e auth = None ->
  snd (handle P e req s) = s
  /\ (fst (handle P e req s)
      = {| status := 401; body := Error "No token provided" |}
      \/ fst (handle P e req s)
         = {| status := 403; body := Error "Invalid token" |})
  /\ (status (fst (handle P e req s)) = 401%N
      <-> match auth with
          | None => True
          | Some pieces =>
              nth_error pieces 1 = None
              \/ nth_error pieces 1 = Some (Opaque "")
          end).
Proof.
  intros Hready Hreq Ha. rewrite handle_ready by exact Hready.
  assert (A : forall next,
             snd (authenticateToken P e auth next s) = s
             /\ (fst (authenticateToken P e auth next s)
                 = {| status := 401; body := Error "No token provided" |}
                 \/ fst (authenticateToken P e auth next s)
                    = {| status := 403; body := Error "Invalid token" |})
             /\ (status (fst (authenticateToken P e auth next s)) = 401%N
                 <-> match auth with
                     | None => True
                     | Some pieces =>
                         nth_error pieces 1 = None
                         \/ nth_error pieces 1 = Some (Opaque "")
                     end)).
  { intros next. unfold authenticated in Ha. unfold authenticateToken.
    destruct auth as [pieces|]; [|simpl; tauto].
    destruct (nth_error pieces 1) as [[[|c w]|t]|]; simpl.
    - split; [reflexivity|]. split; [now left|]. split; auto.
    - split; [reflexivity|]. split; [now right|].
      split; [discriminate|]. intros [H|H]; discriminate.
    - rewrite Ha. simpl. split; [reflexivity|]. split; [now right|].
      split; [discriminate|]. intros [H|H]; discriminate.
    - split; [reflexivity|]. split; [now left|]. split; auto. }
  destruct req; simpl in Hreq; try discriminate;
    injection Hreq as <-; apply A.
Qed.

Lemma unauthenticated_request_refused_witness :
  snd (handle Sample.process (Sample.at_time 3606000)
         (DELETE_expense (Some 2%N) (Bearer Scenario.aliceToken))
         Scenario.withLunch) = Scenario.withLunch
  /\ (fst (handle Sample.process (Sample.at_time 3606000)
             (DELETE_expense (Some 2%N) (Bearer Scenario.aliceToken))
             Scenario.withLunch)
      = {| status := 401; body := Error "No token provided" |}
      \/ fst (handle Sample.process (Sample.at_time 3606000)
                (DELETE_expense (Some 2%N) (Bearer Scenario.aliceToken))
                Scenario.withLunch)
         = {| status := 403; body := Error "Invalid token" |})
  /\ (status (fst (handle Sample.process (Sample.at_time 3606000)
                     (DELETE_expense (Some 2%N)
                        (Bearer Scenario.aliceToken))
                     Scenario.withLunch)) = 401%N
      <-> nth_error [Opaque "Bearer"; Compact Scenario.aliceToken] 1 = None
          \/ nth_error [Opaque "Bearer"; Compact Scenario.aliceToken] 1
             = Some (Opaque "")).
Proof.
  apply (unauthenticated_request_refused Sample.process
           (Sample.at_time 3606000) Scenario.withLunch
           (DELETE_expense (Some 2%N) (Bearer Scenario.aliceToken))
           (Bearer Scenario.aliceToken)).
  - reflexivity.
  - reflexivity.
  - reflexivity.
Defined.

(** X5: for an authenticated request, an [:id] that [new ObjectId]
    refuses is answered 400 with the message of the error, by
    [DELETE /expense/:id] and, when the body passes validation, by
    [PUT /expense/:id]; a body that fails validation is answered 400 with
    the messages of the chains whatever the [:id]; in the three cases nothing
    is stored. *)
Theorem malformed_id_or_body_refused P e s auth user b :
  isDbReady s = true ->
  authenticated P e auth = Some user ->
  handle P e (DELETE_expense None auth) s = send 400 (Error BSONError) s
  /\ (validateEntry P b = [] ->
      handle P e (PUT_expense None auth b) s
      = send 400 (Error BSONError) s)
  /\ (validateEntry P b <> [] ->
      forall id,
        handle P e (PUT_expense id auth b) s
        = send 400 (Errors (validateEntry P b)) s).
Proof.
  intros Hready Ha. rewrite !handle_ready by exact Hready.
  rewrite !(authenticateToken_authenticated P e auth user) by exact Ha.
  split; [reflexivity|]. split.
  - intros V. unfold updateExpense. now rewrite V.
  - intros V id. rewrite handle_ready by exact Hready.
    rewrite (authenticateToken_authenticated P e auth user) by exact Ha.
    now apply updateExpense_invalid.
Qed.

Lemma malformed_id_or_body_refused_witness :
  handle Sample.process (Sample.at_time 7000)
    (DELETE_expense None (Bearer Scenario.aliceToken)) Scenario.withLunch
  = send 400 (Error BSONError) Scenario.withLunch
  /\ (validateEntry Sample.process Scenario.lunch = [] ->
      handle Sample.process (Sample.at_time 7000)
        (PUT_expense None (Bearer Scenario.aliceToken) Scenario.lunch)
        Scenario.withLunch
      = send 400 (Error BSONError) Scenario.withLunch)
  /\ (validateEntry Sample.process Scenario.lunch <> [] ->
      forall id,
        handle Sample.process (Sample.at_time 7000)
          (PUT_expense id (Bearer Scenario.aliceToken) Scenario.lunch)
          Scenario.withLunch
        = send 400 (Errors (validateEntry Sample.process Scenario.lunch))
            Scenario.withLunch).
Proof.
  apply (malformed_id_or_body_refused Sample.process (Sample.at_time 7000)
           Scenario.withLunch (Bearer Scenario.aliceToken)
           (Jwt.payload Scenario.aliceToken) Scenario.lunch).
  - reflexivity.
  - reflexivity.
Defined.

(** X6: [/login], [GET /expenses] and [GET /summary] store nothing,
    whatever they are sent and whatever they answer. *)
Theorem reading_routes_store_nothing P e s :
  (forall b, snd (handle P e (POST_login b) s) = s)
  /\ (forall auth, snd (handle P e (GET_expenses auth) s) = s)
  /\ (forall auth, snd (handle P e (GET_summary auth) s) = s).
Proof.
  assert (A : forall auth next,
             (forall user, snd (next user s) = s) ->
             snd (authenticateToken P e auth next s) = s).
  { intros auth next Hn. unfold authenticateToken.
    destruct auth as [pieces|]; [|reflexivity].
    destruct (nth_error pieces 1) as [[[|]|t]|]; try reflexivity.
    destruct (jwt_verify _ _ _ _); [apply Hn|reflexivity]. }
  unfold handle. destruct (negb (isDbReady s)); [repeat split|].
  split; [|split].
  - intros b. unfold login. destruct (check _ _ ++ _); [|reflexivity].
    destruct (Collection.findOne _ _); [|reflexivity].
    destruct (bcrypt_compare _ _ _); reflexivity.
  - intros auth. apply A. reflexivity.
  - intros auth. apply A. reflexivity.
Qed.

(** ** Along an execution *)

Lemma authenticateToken_keeps (Q : state -> Prop) P e auth next s :
  (forall user, Q (snd (next user s))) -> Q s ->
  Q (snd (authenticateToken P e auth next s)).
Proof.
  intros Hn Hs. unfold authenticateToken.
  destruct auth as [pieces|]; [|exact Hs].
  destruct (nth_error pieces 1) as [[[|]|t]|]; try exact Hs.
  destruct (jwt_verify _ _ _ _); [apply Hn|exact Hs].
Qed.

Lemma extends_refl s : extends s s.
Proof.
  split; [reflexivity|]. split; [|lia]. exists []. now rewrite app_nil_r.
Qed.

Lemma handle_extends P e req s : extends s (snd (handle P e req s)).
Proof.
  unfold handle. destruct (negb (isDbReady s)); [apply extends_refl|].
  destruct req as [b|b|auth b|auth|id auth b|id auth|auth].
  - unfold register. destruct (check _ _ ++ _); [|apply extends_refl].
    destruct (Collection.findOne _ _); [apply extends_refl|].
    split; [reflexivity|]. split; [|simpl; lia].
    eexists. reflexivity.
  - unfold login. destruct (check _ _ ++ _); [|apply extends_refl].
    destruct (Collection.findOne _ _); [|apply extends_refl].
    destruct (bcrypt_compare _ _ _); apply extends_refl.
  - apply authenticateToken_keeps; [|apply extends_refl].
    intros user. unfold addExpense.
    destruct (validateEntry P b); [|apply extends_refl].
    split; [reflexivity|]. split; [|simpl; lia].
    exists []. simpl. now rewrite app_nil_r.
  - apply authenticateToken_keeps; intros; apply extends_refl.
  - apply authenticateToken_keeps; [|apply extends_refl].
    intros user. unfold updateExpense.
    destruct (validateEntry P b); [|apply extends_refl].
    destruct id; [|apply extends_refl].
    destruct (Collection.updateOne _ _ _ _).
    split; [reflexivity|]. split; [|simpl; lia].
    exists []. simpl. now rewrite app_nil_r.
  - apply authenticateToken_keeps; [|apply extends_refl].
    intros user. unfold deleteExpense.
    destruct id; [|apply extends_refl].
    destruct (Collection.deleteOne _ _).
    split; [reflexivity|]. split; [|simpl; lia].
    exists []. simpl. now rewrite app_nil_r.
  - apply authenticateToken_keeps; intros; apply extends_refl.
Qed.

Lemma steps_reachable P s s' :
  reachable P s -> steps P s s' -> reachable P s'.
Proof.
  intros R. induction 1 as [|s' _ IH|e req s' _ IH].
  - exact R.
  - now apply reachable_startServer.
  - now apply reachable_handle.
Qed.

Lemma steps_extend P s s' :
  steps P s s' ->
  (isDbReady s = true -> isDbReady s' = true)
  /\ (exists l, users s' = users s ++ l)
  /\ (next_id s <= next_id s')%N.
Proof.
  induction 1 as [|s' _ IH|e req s' _ IH].
  - split; [auto|]. split; [|lia]. exists []. now rewrite app_nil_r.
  - destruct IH as (_ & Hu & Hn). split; [reflexivity|]. now split.
  - destruct IH as (Hr & (l & Hu) & Hn).
    destruct (handle_extends P e req s') as (Er & (l' & Eu) & En).
    split; [intros H; rewrite Er; auto|]. split; [|lia].
    exists (l ++ l'). now rewrite Eu, Hu, app_assoc.
Qed.

(** X7: along every execution the connection, once established, stays
    established; the users are kept as they are, in their order, new ones
    coming after them; and the generator of identifiers never goes back. *)
Theorem execution_keeps_users_and_connection P s s' :
  steps P s s' ->
  (isDbReady s = true -> isDbReady s' = true)
  /\ (exists l, users s' = users s ++ l)
  /\ (next_id s <= next_id s')%N.
Proof. apply steps_extend. Qed.

Lemma registered_to_withLunch :
  steps Sample.process Scenario.registered Scenario.withLunch.
Proof.
  exact (steps_handle _ _ _ _ _
           (steps_handle _ _ _ _ _ (steps_here _ _))).
Qed.

Lemma execution_keeps_users_and_connection_witness :
  (isDbReady Scenario.registered = true ->
   isDbReady Scenario.withLunch = true)
  /\ (exists l, users Scenario.withLunch = users Scenario.registered ++ l)
  /\ (next_id Scenario.registered <= next_id Scenario.withLunch)%N.
Proof.
  apply (execution_keeps_users_and_connection Sample.process
           Scenario.registered Scenario.withLunch).
  exact registered_to_withLunch.
Defined.

(** X8: where [bcrypt.compare] accepts a password against the hash
    [bcrypt.hash] made of it, a user whose registration was answered 200 and
    stored when no user had the name logs in with the same body in every
    state the process reaches afterwards, and is given a token for the
    identifier of the registration. *)
Theorem registered_user_logs_in_later P e e1 s s1 s2 b id :
  (forall password salt,
     bcrypt_compare P password (bcrypt_hash P password 10 salt) = true) ->
  (forall u, In u (users s) -> User.username u <> Credentials.username b) ->
  handle P e (POST_register b) s
  = send 200 (Registered id (Credentials.username b)) s1 ->
  steps P s1 s2 ->
  handle P e1 (POST_login b) s2
  = send 200
      (Token (jwt_sign P id (Credentials.username b) (JWT_SECRET P)
                (Date_now e1))) s2.
Proof.
  intros Hb Hfresh Hreg Hsteps.
  destruct (steps_extend P s1 s2 Hsteps) as (Hr & (l & Hu) & _).
  unfold handle in Hreg.
  destruct (isDbReady s) eqn:Hready; simpl in Hreg; [|discriminate].
  unfold register in Hreg.
  destruct (check _ _ ++ check _ _ ++ check _ _) eqn:E; [|discriminate].
  apply register_checks_nil in E as [Hn Hp].
  apply isLength_nonempty in Hn, Hp.
  destruct (Collection.findOne _ _); [discriminate|].
  unfold send in Hreg. injection Hreg as Hid Hs1. subst id s1.
  simpl in Hr, Hu. specialize (Hr Hready).
  rewrite handle_ready by exact Hr. unfold login.
  rewrite login_checks_pass by assumption.
  rewrite Hu. unfold Collection.insertOne. rewrite <- app_assoc.
  rewrite findOne_app by (now apply findOne_name_none).
  unfold Collection.findOne. simpl. rewrite String.eqb_refl.
  cbn [User.password User._id]. now rewrite Hb.
Qed.

Lemma registered_user_logs_in_later_witness :
  handle Sample.process (Sample.at_time 9000) (POST_login Scenario.alice)
    Scenario.withLunch
  = send 200
      (Token (jwt_sign Sample.process 0%N "alice"
                (JWT_SECRET Sample.process) 9000)) Scenario.withLunch.
Proof.
  apply (registered_user_logs_in_later Sample.process (Sample.at_time 1000)
           (Sample.at_time 9000) (startServer initial) Scenario.registered
           Scenario.withLunch Scenario.alice 0%N).
  - exact sample_compare_hash.
  - intros u [].
  - reflexivity.
  - exact registered_to_withLunch.
Defined.

(** ** Entries: creation, update, deletion *)

Lemma updateOne_at {A : Type} (filter same : A -> bool) (set : A -> A)
  (before after : list A) (x : A) :
  (forall d, In d before -> filter d = false) -> filter x = true ->
  Collection.updateOne filter same set (before ++ x :: after)
  = (before ++ (if same x then x else set x) :: after,
     if same x then 0%N else 1%N).
Proof.
  intros Hb Hx. induction before as [|d before IH]; simpl.
  - rewrite Hx. now destruct (same x).
  - rewrite (Hb d (or_introl eq_refl)).
    rewrite IH; [reflexivity|]. intros y Hy. apply Hb. now right.
Qed.

Lemma deleteOne_at {A : Type} (filter : A -> bool)
  (before after : list A) (x : A) :
  (forall d, In d before -> filter d = false) -> filter x = true ->
  Collection.deleteOne filter (before ++ x :: after)
  = (before ++ after, 1%N).
Proof.
  intros Hb Hx. induction before as [|d before IH]; simpl.
  - now rewrite Hx.
  - rewrite (Hb d (or_introl eq_refl)).
    rewrite IH; [reflexivity|]. intros y Hy. apply Hb. now right.
Qed.

(** Where the [_id] are distinct, the filter on the [_id] and the owner of
    [x] matches [x] and no other entry. *)
Lemma own_entry_only_match before after x :
  NoDup (map Expense._id (before ++ x :: after)) ->
  ownedEntry (Expense._id x) (Expense.user_id x) x = true
  /\ forall d, In d (before ++ after) ->
               ownedEntry (Expense._id x) (Expense.user_id x) d = false.
Proof.
  intros Hnd. split; [now apply ownedEntry_true|].
  intros d Hd. apply ownedEntry_false. left. intros E.
  rewrite map_app in Hnd. simpl in Hnd.
  apply NoDup_remove_2 in Hnd. apply Hnd.
  rewrite <- map_app, <- E. now apply in_map.
Qed.

(** X9: in a reachable state, the owner's update of a stored entry with a
    valid body that changes one of its fields is answered [{updated: 1}];
    the entry keeps its place, its [_id] and its owner and takes the four
    fields of the body; every other entry, the users and the generator of
    identifiers are as they were. *)
Theorem update_own_entry P e s auth user x b :
  reachable P s -> isDbReady s = true ->
  authenticated P e auth = Some user ->
  In x (expenses s) -> Expense.user_id x = Jwt.user_id user ->
  validateEntry P b = [] -> sameFields b x = false ->
  exists before after,
    expenses s = before ++ x :: after
    /\ handle P e (PUT_expense (Some (Expense._id x)) auth b) s
       = send 200 (Updated 1)
           {| isDbReady := isDbReady s;
              users := users s;
              expenses :=
                before
                ++ entryOf (Expense._id x) (Expense.user_id x) b :: after;
              next_id := next_id s |}.
Proof.
  intros R Hready Ha Hx Ho V Hsame. apply reachable_wf in R.
  destruct (in_split x (expenses s) Hx) as (before & after & E).
  exists before, after. split; [exact E|].
  pose proof (wf_ids_distinct P s R) as Hnd. rewrite E in Hnd.
  destruct (own_entry_only_match before after x Hnd) as [Hm Hothers].
  rewrite handle_ready by exact Hready.
  rewrite (authenticateToken_authenticated P e auth user) by exact Ha.
  unfold updateExpense. rewrite V, E, <- Ho.
  rewrite updateOne_at; [now rewrite Hsame| |exact Hm].
  intros d Hd. apply Hothers. apply in_or_app. now left.
Qed.

Lemma update_own_entry_witness :
  exists before after,
    expenses Scenario.withCoffee = before ++ Scenario.lunchDoc :: after
    /\ handle Sample.process (Sample.at_time 7000)
         (PUT_expense (Some 2%N) (Bearer Scenario.aliceToken)
            Scenario.coffee) Scenario.withCoffee
       = send 200 (Updated 1)
           {| isDbReady := isDbReady Scenario.withCoffee;
              users := users Scenario.withCoffee;
              expenses :=
                before ++ entryOf 2%N 0%N Scenario.coffee :: after;
              next_id := next_id Scenario.withCoffee |}.
Proof.
  apply (update_own_entry Sample.process (Sample.at_time 7000)
           Scenario.withCoffee (Bearer Scenario.aliceToken)
           (Jwt.payload Scenario.aliceToken) Scenario.lunchDoc
           Scenario.coffee).
  - exact (reachable_handle Sample.process _ _ withLunch_reachable).
  - reflexivity.
  - reflexivity.
  - left. reflexivity.
  - reflexivity.
  - reflexivity.
  - reflexivity.
Defined.

(** X10: in a reachable state, the owner's deletion of a stored entry is
    answered [{deleted: 1}]; the entry is taken out and no entry with its
    [_id] is left; the other entries keep their order; and the same request
    on the state it leaves is answered [{deleted: 0}] and changes nothing. *)
Theorem delete_own_entry P e e' s auth user x :
  reachable P s -> isDbReady s = true ->
  authenticated P e auth = Some user ->
  authenticated P e' auth = Some user ->
  In x (expenses s) -> Expense.user_id x = Jwt.user_id user ->
  exists before after s',
    expenses s = before ++ x :: after
    /\ handle P e (DELETE_expense (Some (Expense._id x)) auth) s
       = send 200 (Deleted 1) s'
    /\ expenses s' = before ++ after
    /\ users s' = users s
    /\ (forall d, In d (expenses s') -> Expense._id d <> Expense._id x)
    /\ handle P e' (DELETE_expense (Some (Expense._id x)) auth) s'
       = send 200 (Deleted 0) s'.
Proof.
  intros R Hready Ha Ha' Hx Ho. apply reachable_wf in R.
  destruct (in_split x (expenses s) Hx) as (before & after & E).
  exists before, after. eexists. split; [exact E|].
  pose proof (wf_ids_distinct P s R) as Hnd. rewrite E in Hnd.
  destruct (own_entry_only_match before after x Hnd) as [Hm Hothers].
  assert (Hids : forall d, In d (before ++ after) ->
                           Expense._id d <> Expense._id x).
  { intros d Hd Eid.
    rewrite map_app in Hnd. simpl in Hnd. apply NoDup_remove_2 in Hnd.
    apply Hnd. rewrite <- map_app, <- Eid. now apply in_map. }
  split.
  - rewrite handle_ready by exact Hready.
    rewrite (authenticateToken_authenticated P e auth user) by exact Ha.
    unfold deleteExpense. rewrite E, <- Ho.
    rewrite deleteOne_at; [reflexivity| |exact Hm].
    intros d Hd. apply Hothers. apply in_or_app. now left.
  - simpl. split; [reflexivity|]. split; [reflexivity|].
    split; [exact Hids|].
    rewrite handle_ready by exact Hready.
    rewrite (authenticateToken_authenticated P e' auth user) by exact Ha'.
    unfold deleteExpense. simpl expenses.
    rewrite deleteOne_no_match; [reflexivity|].
    intros d Hd. apply ownedEntry_false. left. now apply Hids.
Qed.

Lemma delete_own_entry_witness :
  exists before after s',
    expenses Scenario.withCoffee = before ++ Scenario.lunchDoc :: after
    /\ handle Sample.process (Sample.at_time 7000)
         (DELETE_expense (Some 2%N) (Bearer Scenario.aliceToken))
         Scenario.withCoffee
       = send 200 (Deleted 1) s'
    /\ expenses s' = before ++ after
    /\ users s' = users Scenario.withCoffee
    /\ (forall d, In d (expenses s') -> Expense._id d <> 2%N)
    /\ handle Sample.process (Sample.at_time 8000)
         (DELETE_expense (Some 2%N) (Bearer Scenario.aliceToken)) s'
       = send 200 (Deleted 0) s'.
Proof.
  apply (delete_own_entry Sample.process (Sample.at_time 7000)
           (Sample.at_time 8000) Scenario.withCoffee
           (Bearer Scenario.aliceToken) (Jwt.payload Scenario.aliceToken)
           Scenario.lunchDoc).
  - exact (reachable_handle Sample.process _ _ withLunch_reachable).
  - reflexivity.
  - reflexivity.
  - reflexivity.
  - left. reflexivity.
  - reflexivity.
Defined.

(** X11: in a reachable state, the identifier [POST /expense] answers is
    the [_id] of no entry and of no user stored before, and the [_id] of the
    entries are distinct afterwards as they were before. *)
Theorem created_id_is_fresh P e s auth b id s' :
  reachable P s ->
  handle P e (POST_expense auth b) s = send 200 (Inserted id) s' ->
  (forall d, In d (expenses s) -> Expense._id d <> id)
  /\ (forall u, In u (users s) -> User._id u <> id)
  /\ NoDup (map Expense._id (expenses s')).
Proof.
  intros R H.
  assert (R' : reachable P s').
  { replace s' with (snd (handle P e (POST_expense auth b) s))
      by now rewrite H.
    now apply reachable_handle. }
  apply reachable_wf in R, R'.
  assert (id = next_id s) as ->.
  { revert H. unfold handle.
    destruct (negb (isDbReady s)); [discriminate|].
    unfold authenticateToken.
    destruct auth as [pieces|]; [|discriminate].
    destruct (nth_error pieces 1) as [[[|]|t]|]; try discriminate.
    destruct (jwt_verify _ _ _ _); [|discriminate].
    unfold addExpense. destruct (validateEntry P b); [|discriminate].
    unfold send. congruence. }
  split; [|split].
  - intros d Hd. pose proof (wf_expense_ids P s R) as F.
    rewrite Forall_forall in F. specialize (F d Hd). simpl in F. lia.
  - intros u Hu. pose proof (wf_user_ids P s R) as F.
    rewrite Forall_forall in F. specialize (F u Hu). simpl in F. lia.
  - exact (wf_ids_distinct P s' R').
Qed.

Lemma created_id_is_fresh_witness :
  (forall d, In d (expenses Scenario.withLunch) -> Expense._id d <> 3%N)
  /\ (forall u, In u (users Scenario.withLunch) -> User._id u <> 3%N)
  /\ NoDup (map Expense._id (expenses Scenario.withCoffee)).
Proof.
  apply (created_id_is_fresh Sample.process (Sample.at_time 6500)
           Scenario.withLunch (Bearer Scenario.aliceToken) Scenario.coffee
           3%N Scenario.withCoffee).
  - exact withLunch_reachable.
  - reflexivity.
Defined.

Lemma filter_snoc_owned owner docs id b :
  filter (ownedBy owner) (docs ++ [entryOf id owner b])
  = filter (ownedBy owner) docs ++ [entryOf id owner b].
Proof.
  rewrite filter_app. simpl. unfold ownedBy at 2. simpl.
  now rewrite N.eqb_refl.
Qed.

(** X12: once a valid body has been stored for an authenticated owner,
    [GET /expenses] of that owner holds the entry, with the identifier that
    was answered and the fields as they were sent, and holds one entry more
    than the owner had. *)
Theorem created_entry_is_listed P e e' s auth user b :
  isDbReady s = true -> engine_ok e' ->
  authenticated P e auth = Some user ->
  authenticated P e' auth = Some user ->
  validateEntry P b = [] ->
  exists s' l,
    handle P e (POST_expense auth b) s = send 200 (Inserted (next_id s)) s'
    /\ handle P e' (GET_expenses auth) s' = send 200 (Expenses l) s'
    /\ In (entryOf (next_id s) (Jwt.user_id user) b) l
    /\ length l
       = S (length (filter (ownedBy (Jwt.user_id user)) (expenses s))).
Proof.
  intros Hready He' Ha Ha' V.
  destruct (addExpense_spec P e s auth user b Hready Ha) as [_ Hadd].
  specialize (Hadd V). do 2 eexists. split; [exact Hadd|].
  rewrite handle_ready by exact Hready.
  rewrite (authenticateToken_authenticated P e' auth user) by exact Ha'.
  unfold getExpenses. simpl expenses. split; [reflexivity|].
  change (expenses s ++ _)
    with (expenses s ++ [entryOf (next_id s) (Jwt.user_id user) b]).
  rewrite filter_snoc_owned.
  assert (Hp : Permutation
                 (Collection.sort (dateOrder (-1))
                    (scanOrder e'
                       (filter (ownedBy (Jwt.user_id user)) (expenses s)
                        ++ [entryOf (next_id s) (Jwt.user_id user) b])))
                 (filter (ownedBy (Jwt.user_id user)) (expenses s)
                  ++ [entryOf (next_id s) (Jwt.user_id user) b])).
  { rewrite sort_permutation. apply (scan_permutes e' He'). }
  split.
  - apply (Permutation_in _ (Permutation_sym Hp)).
    apply in_or_app. right. now left.
  - rewrite (Permutation_length Hp), length_app. simpl. lia.
Qed.

Lemma created_entry_is_listed_witness :
  exists s' l,
    handle Sample.process (Sample.at_time 6500)
      (POST_expense (Bearer Scenario.aliceToken) Scenario.coffee)
      Scenario.withLunch
    = send 200 (Inserted 3%N) s'
    /\ handle Sample.process (Sample.at_time 7000)
         (GET_expenses (Bearer Scenario.aliceToken)) s'
       = send 200 (Expenses l) s'
    /\ In (entryOf 3%N 0%N Scenario.coffee) l
    /\ length l
       = S (length (filter (ownedBy 0%N) (expenses Scenario.withLunch))).
Proof.
  apply (created_entry_is_listed Sample.process (Sample.at_time 6500)
           (Sample.at_time 7000) Scenario.withLunch
           (Bearer Scenario.aliceToken) (Jwt.payload Scenario.aliceToken)
           Scenario.coffee).
  - reflexivity.
  - apply sample_engine_ok.
  - reflexivity.
  - reflexivity.
  - reflexivity.
Defined.

(** X13: in a reachable state, deleting the entry [POST /expense] has just
    stored, by the identifier it answered, is answered [{deleted: 1}] and
    gives back the entries and the users there were before the creation. *)
Theorem create_then_delete P e e' s auth user b :
  reachable P s -> isDbReady s = true ->
  authenticated P e auth = Some user ->
  authenticated P e' auth = Some user ->
  validateEntry P b = [] ->
  exists s' s'',
    handle P e (POST_expense auth b) s = send 200 (Inserted (next_id s)) s'
    /\ handle P e' (DELETE_expense (Some (next_id s)) auth) s'
       = send 200 (Deleted 1) s''
    /\ expenses s'' = expenses s
    /\ users s'' = users s.
Proof.
  intros R Hready Ha Ha' V. apply reachable_wf in R.
  destruct (addExpense_spec P e s auth user b Hready Ha) as [_ Hadd].
  specialize (Hadd V). do 2 eexists. split; [exact Hadd|].
  rewrite handle_ready by exact Hready.
  rewrite (authenticateToken_authenticated P e' auth user) by exact Ha'.
  unfold deleteExpense. simpl expenses.
  rewrite deleteOne_at.
  - split; [reflexivity|]. simpl. now rewrite app_nil_r.
  - intros d Hd. apply ownedEntry_false. left.
    pose proof (wf_expense_ids P s R) as F.
    rewrite Forall_forall in F. specialize (F d Hd). simpl in F. lia.
  - apply ownedEntry_true. split; reflexivity.
Qed.

Lemma create_then_delete_witness :
  exists s' s'',
    handle Sample.process (Sample.at_time 6500)
      (POST_expense (Bearer Scenario.aliceToken) Scenario.coffee)
      Scenario.withLunch
    = send 200 (Inserted 3%N) s'
    /\ handle Sample.process (Sample.at_time 7000)
         (DELETE_expense (Some 3%N) (Bearer Scenario.aliceToken)) s'
       = send 200 (Deleted 1) s''
    /\ expenses s'' = expenses Scenario.withLunch
    /\ users s'' = users Scenario.withLunch.
Proof.
  apply (create_then_delete Sample.process (Sample.at_time 6500)
           (Sample.at_time 7000) Scenario.withLunch
           (Bearer Scenario.aliceToken) (Jwt.payload Scenario.aliceToken)
           Scenario.coffee).
  - exact withLunch_reachable.
  - reflexivity.
  - reflexivity.
  - reflexivity.
  - reflexivity.
Defined.

(** ** The lifetime of a token *)

(** X14: the token [/login] issues at [Date.now() = t0] is accepted by
    [jwt.verify] exactly while [Date.now()] is below
    [1000 * (floor (t0 / 1000) + 3600)], the end of its last second; that
    instant is at most one hour and at least 3599.001 seconds after the
    issuance. *)
Theorem token_accepted_until_expiry P e s b t s' :
  handle P e (POST_login b) s = send 200 (Token t) s' ->
  (forall e',
     (exists user,
        jwt_verify P t (JWT_SECRET P) (Date_now e') = Some user)
     <-> (Date_now e' < 1000 * (Date_now e / 1000 + 3600))%Z)
  /\ (Date_now e + 3599001 <= 1000 * (Date_now e / 1000 + 3600)
      <= Date_now e + 3600000)%Z.
Proof.
  unfold handle, login, send.
  destruct (negb (isDbReady s)); [discriminate|].
  destruct (check _ _ ++ check _ _); [|discriminate].
  destruct (Collection.findOne _ _) as [u|]; [|discriminate].
  destruct (bcrypt_compare _ _ _); [|discriminate].
  intros H. injection H as Ht _. subst t. split.
  - intros e'. unfold jwt_verify, jwt_sign.
    cbn [Jwt.signature Jwt.payload Jwt.exp].
    rewrite String.eqb_refl.
    pose proof (Z.div_mod (Date_now e') 1000 ltac:(lia)) as D.
    pose proof (Z.mod_pos_bound (Date_now e') 1000 ltac:(lia)) as B.
    destruct (Z.leb_spec (Date_now e / 1000 + 3600) (Date_now e' / 1000)).
    + split; [intros (user & Hu); discriminate|]. intros Hlt.
      exfalso. lia.
    + split; [intros _; lia|]. intros _. eexists. reflexivity.
  - pose proof (Z.div_mod (Date_now e) 1000 ltac:(lia)) as D.
    pose proof (Z.mod_pos_bound (Date_now e) 1000 ltac:(lia)) as B.
    lia.
Qed.

Lemma token_accepted_until_expiry_witness :
  (forall e',
     (exists user,
        jwt_verify Sample.process Scenario.aliceToken
          (JWT_SECRET Sample.process) (Date_now e') = Some user)
     <-> (Date_now e' < 1000 * (5000 / 1000 + 3600))%Z)
  /\ (5000 + 3599001 <= 1000 * (5000 / 1000 + 3600) <= 5000 + 3600000)%Z.
Proof.
  apply (token_accepted_until_expiry Sample.process (Sample.at_time 5000)
           Scenario.registered Scenario.alice Scenario.aliceToken
           Scenario.registered).
  reflexivity.
Defined.

(** ** Two registrations under one name *)

(** Two registrations of well-formed credentials under one name that no
    user has, the [findOne] of the second having run before the [insertOne]
    of the first: both are stored. *)
Lemma two_registrations P e1 e2 s b1 b2 :
  isDbReady s = true ->
  Credentials.username b2 = Credentials.username b1 ->
  validator.isLength (Credentials.username b1) 4 = true ->
  validator.isLength (Credentials.password b1) 4 = true ->
  validator.isLength (Credentials.password b2) 4 = true ->
  (forall u, In u (users s) -> User.username u <> Credentials.username b1) ->
  (1 <= insertedSinceFindOne e2)%nat ->
  let u1 := {| User._id := next_id s;
               User.username := Credentials.username b1;
               User.password :=
                 bcrypt_hash P (Credentials.password b1) 10 (genSalt e1) |} in
  let u2 := {| User._id := N.succ (next_id s);
               User.username := Credentials.username b1;
               User.password :=
                 bcrypt_hash P (Credentials.password b2) 10 (genSalt e2) |} in
  let s1 := {| isDbReady := true; users := users s ++ [u1];
               expenses := expenses s; next_id := N.succ (next_id s) |} in
  let s2 := {| isDbReady := true; users := (users s ++ [u1]) ++ [u2];
               expenses := expenses s;
               next_id := N.succ (N.succ (next_id s)) |} in
  handle P e1 (POST_register b1) s
  = send 200 (Registered (next_id s) (Credentials.username b1)) s1
  /\ handle P e2 (POST_register b2) s1
     = send 200 (Registered (N.succ (next_id s)) (Credentials.username b1))
         s2.
Proof.
  intros Hready Hsame Hu Hp1 Hp2 Hfresh Hrace u1 u2 s1 s2. split.
  - apply register_unseen; try assumption.
    intros u Hin. apply Hfresh. now apply In_firstn in Hin.
  - pose proof (register_unseen P e2 s1 b2 eq_refl) as H.
    rewrite Hsame in H. apply H; try assumption.
    intros u Hin. apply Hfresh.
    now apply (usersAtFindOne_before e2 s1 (users s) u1).
Qed.

(** X16: two registrations of well-formed credentials under one name that
    no user has, the [findOne] of the second having run before the
    [insertOne] of the first, are both answered 200, each with an identifier
    of its own, and the state they leave holds two users of that name: the
    check of line 74 does not keep the names distinct. *)
Theorem concurrent_registrations_share_a_name P e1 e2 s b1 b2 :
  isDbReady s = true ->
  Credentials.username b2 = Credentials.username b1 ->
  validator.isLength (Credentials.username b1) 4 = true ->
  validator.isLength (Credentials.password b1) 4 = true ->
  validator.isLength (Credentials.password b2) 4 = true ->
  (forall u, In u (users s) -> User.username u <> Credentials.username b1) ->
  (1 <= insertedSinceFindOne e2)%nat ->
  exists id1 id2 s1 s2 u1 u2,
    handle P e1 (POST_register b1) s
    = send 200 (Registered id1 (Credentials.username b1)) s1
    /\ handle P e2 (POST_register b2) s1
       = send 200 (Registered id2 (Credentials.username b2)) s2
    /\ id1 <> id2
    /\ users s2 = users s ++ [u1; u2]
    /\ User._id u1 = id1 /\ User._id u2 = id2
    /\ User.username u1 = Credentials.username b1
    /\ User.username u2 = Credentials.username b1
    /\ ~ NoDup (map User.username (users s2)).
Proof.
  intros Hready Hsame Hu Hp1 Hp2 Hfresh Hrace.
  destruct (two_registrations P e1 e2 s b1 b2 Hready Hsame Hu Hp1 Hp2
              Hfresh Hrace) as [H1 H2].
  do 6 eexists. split; [exact H1|]. rewrite Hsame.
  split; [exact H2|]. simpl.
  split; [lia|]. split; [now rewrite <- app_assoc|].
  repeat (split; [reflexivity|]).
  rewrite <- app_assoc, map_app. simpl. intros Hnd.
  apply NoDup_app_remove_l in Hnd.
  inversion Hnd as [|x l Hnot _]; subst. apply Hnot. now left.
Qed.

Lemma concurrent_registrations_share_a_name_witness :
  exists id1 id2 s1 s2 u1 u2,
    handle Sample.process (Sample.at_time 1000)
      (POST_register Scenario.alice) (startServer initial)
    = send 200 (Registered id1 "alice") s1
    /\ handle Sample.process (Sample.racing 1 1001)
         (POST_register Scenario.secondAlice) s1
       = send 200 (Registered id2 "alice") s2
    /\ id1 <> id2
    /\ users s2 = users (startServer initial) ++ [u1; u2]
    /\ User._id u1 = id1 /\ User._id u2 = id2
    /\ User.username u1 = "alice"
    /\ User.username u2 = "alice"
    /\ ~ NoDup (map User.username (users s2)).
Proof.
  apply (concurrent_registrations_share_a_name Sample.process
           (Sample.at_time 1000) (Sample.racing 1 1001)
           (startServer initial) Scenario.alice Scenario.secondAlice).
  - reflexivity.
  - reflexivity.
  - reflexivity.
  - reflexivity.
  - reflexivity.
  - intros u [].
  - simpl. lia.
Defined.

(** C3 at an input on which the code departs from it: two registrations
    under one name that no user had, the [findOne] of the second having run
    before the [insertOne] of the first, are both answered 200.  The second
    registrant is a registered user, stored with the hash of the password
    sent; when that password does not match the hash of the first registrant,
    the login with it is answered 401 "Invalid password", without a token: the
    lookup of [/login] returns the first user stored under the name. *)
Theorem second_registrant_is_refused P e1 e2 e3 s b1 b2 :
  isDbReady s = true ->
  Credentials.username b2 = Credentials.username b1 ->
  validator.isLength (Credentials.username b1) 4 = true ->
  validator.isLength (Credentials.password b1) 4 = true ->
  validator.isLength (Credentials.password b2) 4 = true ->
  (forall u, In u (users s) -> User.username u <> Credentials.username b1) ->
  (1 <= insertedSinceFindOne e2)%nat ->
  bcrypt_compare P (Credentials.password b2)
    (bcrypt_hash P (Credentials.password b1) 10 (genSalt e1)) = false ->
  exists id1 id2 s1 s2,
    handle P e1 (POST_register b1) s
    = send 200 (Registered id1 (Credentials.username b1)) s1
    /\ handle P e2 (POST_register b2) s1
       = send 200 (Registered id2 (Credentials.username b2)) s2
    /\ In {| User._id := id2;
             User.username := Credentials.username b2;
             User.password :=
               bcrypt_hash P (Credentials.password b2) 10 (genSalt e2) |}
         (users s2)
    /\ handle P e3 (POST_login b2) s2
       = send 401 (Error "Invalid password") s2.
Proof.
  intros Hready Hsame Hu Hp1 Hp2 Hfresh Hrace Hwrong.
  destruct (two_registrations P e1 e2 s b1 b2 Hready Hsame Hu Hp1 Hp2
              Hfresh Hrace) as [H1 H2].
  do 4 eexists. split; [exact H1|]. rewrite Hsame.
  split; [exact H2|]. split.
  - simpl. apply in_or_app. right. now left.
  - rewrite handle_ready by reflexivity. unfold login.
    rewrite login_checks_pass
      by (rewrite ?Hsame; now apply isLength_nonempty).
    simpl users. rewrite <- app_assoc, Hsame.
    rewrite findOne_app by (now apply findOne_name_none).
    unfold Collection.findOne. simpl. rewrite String.eqb_refl.
    cbn [User.password]. now rewrite Hwrong.
Qed.

Lemma second_registrant_is_refused_witness :
  exists id1 id2 s1 s2,
    handle Sample.process (Sample.at_time 1000)
      (POST_register Scenario.alice) (startServer initial)
    = send 200 (Registered id1 "alice") s1
    /\ handle Sample.process (Sample.racing 1 1001)
         (POST_register Scenario.secondAlice) s1
       = send 200 (Registered id2 "alice") s2
    /\ In {| User._id := id2; User.username := "alice";
             User.password := "hunter22$pepper" |} (users s2)
    /\ handle Sample.process (Sample.at_time 5000)
         (POST_login Scenario.secondAlice) s2
       = send 401 (Error "Invalid password") s2.
Proof.
  apply (second_registrant_is_refused Sample.process (Sample.at_time 1000)
           (Sample.racing 1 1001) (Sample.at_time 5000)
           (startServer initial) Scenario.alice Scenario.secondAlice).
  - reflexivity.
  - reflexivity.
  - reflexivity.
  - reflexivity.
  - reflexivity.
  - intros u [].
  - simpl. lia.
  - reflexivity.
Defined.

(** The state of the two registrations is one the process reaches, and in
    it the second registrant's password matches the hash stored with it. *)
Example twoAlices_reachable :
  reachable Sample.process Scenario.twoAlices
  /\ users Scenario.twoAlices
     = [Scenario.aliceDoc;
        {| User._id := 1%N; User.username := "alice";
           User.password := "hunter22$pepper" |}]
  /\ bcrypt_compare Sample.process "hunter22" "hunter22$pepper" = true
  /\ handle Sample.process (Sample.at_time 5000)
       (POST_login (credentials "alice" "hunter22")) Scenario.twoAlices
     = send 401 (Error "Invalid password") Scenario.twoAlices.
Proof.
  split; [|repeat split].
  exact (reachable_handle Sample.process _ _ registered_reachable).
Qed.

(** ** What [PUT] leaves of an entry *)

(** X17: [PUT /expense/:id] never changes the [_id] or the owner of an
    entry, and neither adds nor removes one, whatever it is sent. *)
Theorem update_keeps_identities P e s id auth b :
  map identityOf (expenses (snd (handle P e (PUT_expense id auth b) s)))
  = map identityOf (expenses s).
Proof.
  unfold handle. destruct (negb (isDbReady s)); [reflexivity|].
  apply (authenticateToken_keeps
           (fun s' => map identityOf (expenses s') = map identityOf (expenses s)));
    [|reflexivity].
  intros user. unfold updateExpense.
  destruct (validateEntry P b); [|reflexivity].
  destruct id as [id|]; [|reflexivity].
  destruct (Collection.updateOne _ _ _ _) as [docs n] eqn:E. simpl.
  replace docs with (fst (Collection.updateOne
                            (ownedEntry id (Jwt.user_id user))
                            (sameFields b) (setFields b) (expenses s)))
    by now rewrite E.
  now apply updateOne_map.
Qed.

(** ** The columns of the summary *)




Section Column.
Variables (column : Bucket.doc -> Q) (type : string).
Hypothesis column_newRow : forall key, column (newRow key) = 0%Q.
Hypothesis column_addTo : forall r d,
  column (addTo r d) = sum_step (column r) (cond_amount type d).




End Column.



(** ** The messages of a refused body *)

(** X19: for an authenticated request, [POST /expense] and
    [PUT /expense/:id] answer a body that fails a chain with the same list
    of messages, in which the message of each of the four chains occurs
    exactly when that chain fails; nothing is stored. *)
Theorem refused_body_lists_every_failure P e s auth user id b :
  isDbReady s = true -> authenticated P e auth = Some user ->
  validateEntry P b <> [] ->
  exists errors,
    handle P e (POST_expense auth b) s = send 400 (Errors errors) s
    /\ handle P e (PUT_expense id auth b) s = send 400 (Errors errors) s
    /\ (In "type ต้องเป็น expense หรือ income" errors
        <-> validator.isIn (Entry.type b) ["expense"; "income"] = false)
    /\ (In "amount ต้องเป็นตัวเลขมากกว่า 0" errors
        <-> amountIsFloat_gt0 (Entry.amount b) = false)
    /\ (In "date ต้องเป็นวันที่แบบ yyyy-mm-dd" errors
        <-> isISO8601 P (Entry.date b) = false)
    /\ (In "description ต้องไม่ว่าง" errors
        <-> Entry.description b = "").
Proof.
  intros Hready Ha V. exists (validateEntry P b).
  split; [exact (proj1 (addExpense_spec P e s auth user b Hready Ha) V)|].
  split.
  { rewrite handle_ready by exact Hready.
    rewrite (authenticateToken_authenticated P e auth user) by exact Ha.
    now apply updateExpense_invalid. }
  clear V. unfold validateEntry. rewrite <- isEmpty_true.
  destruct (validator.isIn _ _), (amountIsFloat_gt0 _),
    (isISO8601 P _), (validator.isEmpty _); simpl;
    repeat split; intros H; try reflexivity; try discriminate;
    try (now left); try (right; now left);
    try (right; right; now left); try (right; right; right; now left);
    repeat (destruct H as [H|H]; try discriminate H); contradiction.
Qed.

Lemma refused_body_lists_every_failure_witness :
  exists errors,
    handle Sample.process (Sample.at_time 7000)
      (POST_expense (Bearer Scenario.aliceToken)
         {| Entry.type := "gift"; Entry.amount := JNum 0;
            Entry.description := "tea"; Entry.date := "2025-01-05" |})
      Scenario.withLunch
    = send 400 (Errors errors) Scenario.withLunch
    /\ handle Sample.process (Sample.at_time 7000)
         (PUT_expense (Some 2%N) (Bearer Scenario.aliceToken)
            {| Entry.type := "gift"; Entry.amount := JNum 0;
               Entry.description := "tea"; Entry.date := "2025-01-05" |})
         Scenario.withLunch
       = send 400 (Errors errors) Scenario.withLunch
    /\ (In "type ต้องเป็น expense หรือ income" errors
        <-> validator.isIn "gift" ["expense"; "income"] = false)
    /\ (In "amount ต้องเป็นตัวเลขมากกว่า 0" errors
        <-> amountIsFloat_gt0 (JNum 0) = false)
    /\ (In "date ต้องเป็นวันที่แบบ yyyy-mm-dd" errors
        <-> isISO8601 Sample.process "2025-01-05" = false)
    /\ (In "description ต้องไม่ว่าง" errors <-> "tea" = "").
Proof.
  apply (refused_body_lists_every_failure Sample.process
           (Sample.at_time 7000) Scenario.withLunch
           (Bearer Scenario.aliceToken) (Jwt.payload Scenario.aliceToken)
           (Some 2%N)
           {| Entry.type := "gift"; Entry.amount := JNum 0;
              Entry.description := "tea"; Entry.date := "2025-01-05" |}).
  - reflexivity.
  - reflexivity.
  - discriminate.
Defined.

(** ** One owner's requests and another owner's entries *)

Lemma filter_updateOne {A : Type} (f g same : A -> bool) (set : A -> A)
  (c : list A) :
  (forall d, f d = true -> g d = false) ->
  (forall d, g (set d) = g d) ->
  filter g (fst (Collection.updateOne f same set c)) = filter g c.
Proof.
  intros Hfg Hset. induction c as [|d c IH]; simpl; [reflexivity|].
  destruct (f d) eqn:F.
  - destruct (same d); simpl; [reflexivity|].
    now rewrite Hset, (Hfg d F).
  - destruct (Collection.updateOne f same set c) as [c' n].
    simpl in *. now rewrite IH.
Qed.

Lemma filter_deleteOne {A : Type} (f g : A -> bool) (c : list A) :
  (forall d, f d = true -> g d = false) ->
  filter g (fst (Collection.deleteOne f c)) = filter g c.
Proof.
  intros Hfg. induction c as [|d c IH]; simpl; [reflexivity|].
  destruct (f d) eqn:F.
  - simpl. now rewrite (Hfg d F).
  - destruct (Collection.deleteOne f c) as [c' n].
    simpl in *. now rewrite IH.
Qed.

Lemma authenticateToken_cases P e auth next s :
  (exists user, authenticated P e auth = Some user
                /\ authenticateToken P e auth next s = next user s)
  \/ snd (authenticateToken P e auth next s) = s.
Proof.
  unfold authenticated, authenticateToken.
  destruct auth as [pieces|]; [|now right].
  destruct (nth_error pieces 1) as [[[|]|t]|]; try now right.
  destruct (jwt_verify _ _ _ _) as [user|]; [|now right].
  left. exists user. split; reflexivity.
Qed.

Lemma ownedEntry_not_ownedBy id user owner :
  user <> owner ->
  forall d, ownedEntry id user d = true -> ownedBy owner d = false.
Proof.
  intros Hne d H. apply ownedEntry_true in H as [_ H].
  unfold ownedBy. apply N.eqb_neq. congruence.
Qed.

(** X20: a request that is not authenticated as an owner, whatever its
    route, its [:id] and its body, leaves the entries of that owner as they
    are and in their order; so it changes nothing of what [GET /expenses]
    and [GET /summary] answer that owner. *)
Theorem other_requests_leave_entries P e s req owner :
  (forall auth user,
     authorizationOf req = Some auth ->
     authenticated P e auth = Some user ->
     Jwt.user_id user <> owner) ->
  filter (ownedBy owner) (expenses (snd (handle P e req s)))
  = filter (ownedBy owner) (expenses s).
Proof.
  intros Hother. unfold handle.
  destruct (negb (isDbReady s)); [reflexivity|].
  assert (A : forall auth next,
             authorizationOf req = Some auth ->
             (forall user,
                Jwt.user_id user <> owner ->
                filter (ownedBy owner) (expenses (snd (next user s)))
                = filter (ownedBy owner) (expenses s)) ->
             filter (ownedBy owner)
               (expenses (snd (authenticateToken P e auth next s)))
             = filter (ownedBy owner) (expenses s)).
  { intros auth next Hreq Hn.
    destruct (authenticateToken_cases P e auth next s)
      as [(user & Ha & Hnext)|Hsame].
    - rewrite Hnext. apply Hn. now apply (Hother auth).
    - now rewrite Hsame. }
  destruct req as [b|b|auth b|auth|id auth b|id auth|auth].
  - unfold register. destruct (check _ _ ++ _); [|reflexivity].
    destruct (Collection.findOne _ _); reflexivity.
  - unfold login. destruct (check _ _ ++ _); [|reflexivity].
    destruct (Collection.findOne _ _); [|reflexivity].
    destruct (bcrypt_compare _ _ _); reflexivity.
  - apply A; [reflexivity|]. intros user Hne. unfold addExpense.
    destruct (validateEntry P b); [|reflexivity].
    simpl. unfold Collection.insertOne. rewrite filter_app. simpl.
    unfold ownedBy at 2. simpl.
    rewrite (proj2 (N.eqb_neq _ _) Hne). apply app_nil_r.
  - apply A; [reflexivity|]. reflexivity.
  - apply A; [reflexivity|]. intros user Hne. unfold updateExpense.
    destruct (validateEntry P b); [|reflexivity].
    destruct id as [id|]; [|reflexivity].
    destruct (Collection.updateOne _ _ _ _) as [docs n] eqn:E. simpl.
    replace docs with (fst (Collection.updateOne
                              (ownedEntry id (Jwt.user_id user))
                              (sameFields b) (setFields b) (expenses s)))
      by now rewrite E.
    apply filter_updateOne; [|reflexivity].
    now apply ownedEntry_not_ownedBy.
  - apply A; [reflexivity|]. intros user Hne. unfold deleteExpense.
    destruct id as [id|]; [|reflexivity].
    destruct (Collection.deleteOne _ _) as [docs n] eqn:E. simpl.
    replace docs with (fst (Collection.deleteOne
                              (ownedEntry id (Jwt.user_id user))
                              (expenses s)))
      by now rewrite E.
    apply filter_deleteOne. now apply ownedEntry_not_ownedBy.
  - apply A; [reflexivity|]. reflexivity.
Qed.

Lemma other_requests_leave_entries_witness :
  filter (ownedBy 0%N)
    (expenses
       (snd (handle Sample.process (Sample.at_time 7000)
               (POST_expense (Bearer Scenario.bobToken) Scenario.salary)
               Scenario.withLunch)))
  = filter (ownedBy 0%N) (expenses Scenario.withLunch).
Proof.
  apply (other_requests_leave_entries Sample.process (Sample.at_time 7000)
           Scenario.withLunch
           (POST_expense (Bearer Scenario.bobToken) Scenario.salary) 0%N).
  intros auth user Hreq Ha. injection Hreq as <-.
  injection Ha as <-. discriminate.
Defined.
